(** * The omit.Val container and its JSON, text and database adapters

    A shallow embedding of the two [omit] packages of the repository:
    [src/omit/omit.go] (module [Omit] below) and the near-duplicate
    [src/unnamed/part_000] (module [Part000]).  Functions that are
    textually the same in both files are embedded once, in section
    [Container].

    Conventions.
    - A method with a pointer receiver ([func (v *Val[T]) ...]) takes the
      container and returns the container after the call; when the Go
      method also returns an [error], the result is a pair.
    - [error] is [option string]: [None] is Go's [nil] error.
    - A call that can panic returns an [outcome].
    - [[]byte] is [list byte] ([nil] and the empty slice are both [[]],
      the code only looks at [len]); a Go [string] is a [string]. *)

From Stdlib Require Import ZArith List Bool Lia.
From Stdlib Require Import Strings.String Strings.Ascii Strings.Byte.
From Stdlib Require Import DecimalString.
Import ListNotations.
Open Scope string_scope.
Open Scope Z_scope.

Set Implicit Arguments.

(** ** Results *)

Definition error := option string.

Inductive outcome (A : Type) : Type :=
| Returns (a : A)
| Panics (msg : string).
Arguments Returns {A} a.
Arguments Panics {A} msg.

(** [errors.New] *)
Definition errors_New (msg : string) : error := Some msg.

(** ** Bytes *)

(** [bytes.Equal] *)
Fixpoint bytes_Equal (a b : list byte) : bool :=
  match a, b with
  | [], [] => true
  | x :: a', y :: b' => Byte.eqb x y && bytes_Equal a' b'
  | _, _ => false
  end.

(** Modelled from the spec: [globaldata.JSONNull], declared in the
    package [internal/globaldata] which is not among the sources; the
    spec calls it the 4-byte literal JSON null token. *)
Definition JSONNull : list byte := list_byte_of_string "null".

(** ** The part of package [reflect] the adapters use *)

Inductive Kind : Type :=
| Invalid | Bool | Int | Int8 | Int16 | Int32 | Int64
| Uint | Uint8 | Uint16 | Uint32 | Uint64 | Uintptr
| Float32 | Float64 | Complex64 | Complex128
| Array | Chan | Func | Interface | Map | Pointer | Slice
| String | Struct | UnsafePointer.

(** The kinds of the types that have no element type. *)
Inductive PlainKind : Type :=
| PBool | PInt | PInt8 | PInt16 | PInt32 | PInt64
| PUint | PUint8 | PUint16 | PUint32 | PUint64 | PUintptr
| PFloat32 | PFloat64 | PComplex64 | PComplex128
| PFunc | PInterface | PString | PStruct | PUnsafePointer.

Definition kind_of_plain (k : PlainKind) : Kind :=
  match k with
  | PBool => Bool | PInt => Int | PInt8 => Int8 | PInt16 => Int16
  | PInt32 => Int32 | PInt64 => Int64
  | PUint => Uint | PUint8 => Uint8 | PUint16 => Uint16
  | PUint32 => Uint32 | PUint64 => Uint64 | PUintptr => Uintptr
  | PFloat32 => Float32 | PFloat64 => Float64
  | PComplex64 => Complex64 | PComplex128 => Complex128
  | PFunc => Func | PInterface => Interface | PString => String
  | PStruct => Struct | PUnsafePointer => UnsafePointer
  end.

(** The three interfaces the adapters test for:
    [globaldata.DriverValuerIntf], [globaldata.EncodingTextMarshalerIntf]
    and [globaldata.EncodingTextUnmarshalerIntf]. *)
Inductive Intf : Type :=
| DriverValuerIntf
| EncodingTextMarshalerIntf
| EncodingTextUnmarshalerIntf.

Definition Intf_eqb (a b : Intf) : bool :=
  match a, b with
  | DriverValuerIntf, DriverValuerIntf => true
  | EncodingTextMarshalerIntf, EncodingTextMarshalerIntf => true
  | EncodingTextUnmarshalerIntf, EncodingTextUnmarshalerIntf => true
  | _, _ => false
  end.

(** A [reflect.Type]: its name (empty for an unnamed type), its shape and
    those of the three interfaces above that its method set satisfies.
    Types are finite trees here, so a cyclic declaration such as
    [type P *P] has no descriptor. *)
Inductive rtype : Type :=
| Plain   (name : string) (k : PlainKind) (ms : list Intf)
| ArrayOf (name : string) (len : Z) (elem : rtype) (ms : list Intf)
| ChanOf  (name : string) (elem : rtype) (ms : list Intf)
| MapOf   (name : string) (key elem : rtype) (ms : list Intf)
| PtrTo   (name : string) (elem : rtype) (ms : list Intf)
| SliceOf (name : string) (elem : rtype) (ms : list Intf).

(** [Type.Kind] *)
Definition Kind_of (t : rtype) : Kind :=
  match t with
  | Plain _ k _ => kind_of_plain k
  | ArrayOf _ _ _ _ => Array
  | ChanOf _ _ _ => Chan
  | MapOf _ _ _ _ => Map
  | PtrTo _ _ _ => Pointer
  | SliceOf _ _ _ => Slice
  end.

(** [Type.Elem]; it panics on a type without an element type. *)
Definition Elem (t : rtype) : outcome rtype :=
  match t with
  | Plain _ _ _ => Panics "reflect: Elem of invalid type"
  | ArrayOf _ _ e _ | ChanOf _ e _ | MapOf _ _ e _
  | PtrTo _ e _ | SliceOf _ e _ => Returns e
  end.

Definition methods (t : rtype) : list Intf :=
  match t with
  | Plain _ _ ms | ArrayOf _ _ _ ms | ChanOf _ _ ms | MapOf _ _ _ ms
  | PtrTo _ _ ms | SliceOf _ _ ms => ms
  end.

(** [Type.Implements] *)
Definition Implements (t : rtype) (i : Intf) : bool :=
  existsb (Intf_eqb i) (methods t).

Definition Kind_eqb (a b : Kind) : bool :=
  match a, b with
  | Invalid, Invalid | Bool, Bool | Int, Int | Int8, Int8 | Int16, Int16
  | Int32, Int32 | Int64, Int64 | Uint, Uint | Uint8, Uint8
  | Uint16, Uint16 | Uint32, Uint32 | Uint64, Uint64 | Uintptr, Uintptr
  | Float32, Float32 | Float64, Float64 | Complex64, Complex64
  | Complex128, Complex128 | Array, Array | Chan, Chan | Func, Func
  | Interface, Interface | Map, Map | Pointer, Pointer | Slice, Slice
  | String, String | Struct, Struct | UnsafePointer, UnsafePointer => true
  | _, _ => false
  end.

Definition PlainKind_eqb (a b : PlainKind) : bool :=
  Kind_eqb (kind_of_plain a) (kind_of_plain b).

Fixpoint Intfs_eqb (a b : list Intf) : bool :=
  match a, b with
  | [], [] => true
  | x :: a', y :: b' => Intf_eqb x y && Intfs_eqb a' b'
  | _, _ => false
  end.

(** [==] on two [reflect.Type] values *)
Fixpoint rtype_eqb (a b : rtype) : bool :=
  match a, b with
  | Plain n k ms, Plain n' k' ms' =>
      String.eqb n n' && PlainKind_eqb k k' && Intfs_eqb ms ms'
  | ArrayOf n l e ms, ArrayOf n' l' e' ms' =>
      String.eqb n n' && (l =? l') && rtype_eqb e e' && Intfs_eqb ms ms'
  | ChanOf n e ms, ChanOf n' e' ms' =>
      String.eqb n n' && rtype_eqb e e' && Intfs_eqb ms ms'
  | MapOf n k e ms, MapOf n' k' e' ms' =>
      String.eqb n n' && rtype_eqb k k' && rtype_eqb e e' && Intfs_eqb ms ms'
  | PtrTo n e ms, PtrTo n' e' ms' =>
      String.eqb n n' && rtype_eqb e e' && Intfs_eqb ms ms'
  | SliceOf n e ms, SliceOf n' e' ms' =>
      String.eqb n n' && rtype_eqb e e' && Intfs_eqb ms ms'
  | _, _ => false
  end.

(** Modelled from the spec: [globaldata.TimeTimeType], the descriptor of
    [time.Time] ("a recognized calendar/timestamp aggregate"), declared
    in the absent package [internal/globaldata].  [time.Time] has a
    [MarshalText] method and no [Value] method. *)
Definition TimeTimeType : rtype :=
  Plain "time.Time" PStruct [EncodingTextMarshalerIntf].

(** [Kind.String] *)
Definition Kind_String (k : Kind) : string :=
  match k with
  | Invalid => "invalid" | Bool => "bool" | Int => "int" | Int8 => "int8"
  | Int16 => "int16" | Int32 => "int32" | Int64 => "int64"
  | Uint => "uint" | Uint8 => "uint8" | Uint16 => "uint16"
  | Uint32 => "uint32" | Uint64 => "uint64" | Uintptr => "uintptr"
  | Float32 => "float32" | Float64 => "float64"
  | Complex64 => "complex64" | Complex128 => "complex128"
  | Array => "array" | Chan => "chan" | Func => "func"
  | Interface => "interface" | Map => "map" | Pointer => "ptr"
  | Slice => "slice" | String => "string" | Struct => "struct"
  | UnsafePointer => "unsafe.Pointer"
  end.

(** [Value.Convert(globaldata.Int64Type).Int()] on an unsigned value [u]
    of at most 64 bits: the same 64 bits read as a signed integer. *)
Definition to_int64 (u : Z) : Z :=
  let w := u mod 2 ^ 64 in
  if w <? 2 ^ 63 then w else w - 2 ^ 64.

(** ** Dynamic values at the database boundary

    A value of Go type [any] as the database adapters see it: [nil] or
    one of the kinds of [driver.Value] used below.  ([float64] and
    [time.Time], the two remaining [driver.Value] kinds, are not needed
    as sources here; a held [time.Time] travels as [Held].) *)
Inductive any : Type :=
| Nil
| OfInt64 (n : Z)
| OfBool (b : bool)
| OfBytes (b : list byte)
| OfString (s : string).

(** [value == nil] *)
Definition any_is_nil (a : any) : bool :=
  match a with Nil => true | _ => false end.

(** What [Value] hands to the driver: a dynamic value made by the
    adapter or by the held value's own [Value] method, or the held value
    itself, boxed as it is.  The two constructors say where the value
    came from; when the held value is itself an [int64], [Held] of it
    and [Dyn] of its [OfInt64] are the same Go value. *)
Inductive driver_Value (T : Type) : Type :=
| Dyn (a : any)
| Held (x : T).
Arguments Dyn {T} a.
Arguments Held {T} x.

(** ** What the generic code needs to know about [T] *)

(** The type parameter [T] as package [reflect] and the method calls
    through the three interfaces see it. *)
Class GoType (T : Type) : Type := {
  (** [var empty T] *)
  zero : T;
  (** [reflect.TypeOf(x)]: the dynamic type of [x]; [None] is the nil
      [reflect.Type] that a nil interface value has. *)
  TypeOf : T -> option rtype;
  (** [reflect.TypeOf(&x)], the type [*T] *)
  PointerType : rtype;
  (** whether the pointer, map or slice header [x] is nil *)
  is_nil : T -> bool;
  (** [reflect.ValueOf(x).Int()], for the signed integer kinds *)
  Int_of : T -> Z;
  (** [reflect.ValueOf(x).Uint()], for the unsigned integer kinds *)
  Uint_of : T -> Z;
  (** [x.(driver.Valuer).Value()] *)
  Valuer_Value : T -> any * error;
  (** [x.(encoding.TextMarshaler).MarshalText()] *)
  TextMarshaler_MarshalText : T -> list byte * error;
  (** [(&x).(encoding.TextUnmarshaler).UnmarshalText(text)]: [x] after
      the call, and the error *)
  TextUnmarshaler_UnmarshalText : T -> list byte -> T * error
}.

(** [encoding/json] at type [T]. *)
Class JSONCodec (T : Type) : Type := {
  (** [json.Marshal(x)] *)
  json_Marshal : T -> list byte * error;
  (** [json.Unmarshal(data, &x)]: [x] after the call, and the error *)
  json_Unmarshal : list byte -> T -> T * error
}.

(** [opt.ConvertAssign], the convert-assign helper of the root package,
    which is not among the sources: it is a parameter of the adapters. *)
Class Converter (T : Type) : Type := {
  (** [opt.ConvertAssign(&x, src)]: [x] after the call, and the error *)
  ConvertAssign : T -> any -> T * error;
  (** [opt.ConvertAssign(&text, x)] with [text] the empty string:
      [text] after the call, and the error *)
  ConvertAssign_string : T -> string * error
}.

(** [reflect.ValueOf(x).IsNil()] *)
Definition IsNil {T} `{GoType T} (x : T) : outcome bool :=
  match TypeOf x with
  | None => Panics "reflect: call of reflect.Value.IsNil on zero Value"
  | Some t =>
      match Kind_of t with
      | Chan | Func | Map | Pointer | UnsafePointer | Interface | Slice =>
          Returns (is_nil x)
      | k => Panics ("reflect: call of reflect.Value.IsNil on "
                       ++ Kind_String k ++ " Value")
      end
  end.

(** ** The container *)

(** [type State int] ([type state int] in part_000) *)
Definition StateT : Type := Z.
Definition StateUnset : StateT := 0.
Definition StateSet : StateT := 1.

(** [func (s State) String() string] *)
Definition State_String (s : StateT) : outcome string :=
  if s =? StateUnset then Returns "unset"
  else if s =? StateSet then Returns "set"
  else Panics "unknown".

(** [type Val[T any] struct { value T; state State }] *)
Record Val (T : Type) : Type := mkVal { value : T; state : StateT }.

Section Container.
Context {T : Type} `{GoType T} `{JSONCodec T} `{Converter T}.

(** [From] *)
Definition From (val : T) : Val T :=
  {| value := val; state := StateSet |}.

(** [FromPtr]; a [*T] is [option T], [None] being the nil pointer. *)
Definition FromPtr (val : option T) : Val T :=
  match val with
  | None => {| value := zero; state := StateUnset |}
  | Some x => {| value := x; state := StateSet |}
  end.

(** [Get] *)
Definition Get (v : Val T) : T * bool :=
  if state v =? StateSet then (value v, true)
  else (zero, false).

(** [GetOr] *)
Definition GetOr (v : Val T) (fallback : T) : T :=
  if state v =? StateSet then value v else fallback.

(** [MustGet] *)
Definition MustGet (v : Val T) : outcome T :=
  let '(val, ok) := Get v in
  if negb ok then Panics "no value present"
  else Returns val.

(** The method [Map] *)
Definition Map_ (v : Val T) (fn : T -> T) : Val T :=
  if state v =? StateSet then From (fn (value v))
  else {| value := zero; state := state v |}.

(** [Set] *)
Definition Set_ (v : Val T) (val : T) : Val T :=
  {| value := val; state := StateSet |}.

(** [Unset] *)
Definition Unset (v : Val T) : Val T :=
  {| value := zero; state := StateUnset |}.

(** [IsSet] *)
Definition IsSet (v : Val T) : bool := state v =? StateSet.

(** [IsUnset] *)
Definition IsUnset (v : Val T) : bool := state v =? StateUnset.

(** [State] *)
Definition State (v : Val T) : StateT := state v.

(** [MarshalJSON] *)
Definition MarshalJSON (v : Val T) : list byte * error :=
  if state v =? StateSet then json_Marshal (value v)
  else (JSONNull, None).

(** [Scan]: the state is assigned first, then the conversion writes
    into the value slot. *)
Definition Scan (v : Val T) (value_ : any) : Val T * error :=
  if any_is_nil value_ then
    (v, errors_New "cannot store 'null' value in omit value")
  else
    let v1 := {| value := value v; state := StateSet |} in
    let '(x, err) := ConvertAssign (value v1) value_ in
    ({| value := x; state := state v1 |}, err).

End Container.

(** The package-level function [Map], from [Val[A]] to [Val[B]] *)
Definition MapAB {A B : Type} `{GoType B} (v : Val A) (fn : A -> B) : Val B :=
  if state v =? StateSet then {| value := fn (value v); state := StateSet |}
  else {| value := zero; state := state v |}.

(** ** src/omit/omit.go *)

Module Omit.
Section Omit.
Context {T : Type} `{GoType T} `{JSONCodec T} `{Converter T}.

(** [New] *)
Definition New : Val T := {| value := zero; state := StateUnset |}.

(** [SetPtr]; on a nil pointer only the state is written. *)
Definition SetPtr (v : Val T) (val : option T) : Val T :=
  match val with
  | None => {| value := value v; state := StateUnset |}
  | Some x => {| value := x; state := StateSet |}
  end.

(** [Ptr]: the address of the value slot of the receiver's copy, or
    the nil pointer.  A pointer is kept as nil or its pointee; which
    address it is is not kept. *)
Definition Ptr (v : Val T) : option T :=
  if state v =? StateSet then Some (value v) else None.

(** [UnmarshalJSON] *)
Definition UnmarshalJSON (v : Val T) (data : list byte) : Val T * error :=
  if (List.length data =? 0)%nat then
    ({| value := value v; state := StateUnset |}, None)
  else if bytes_Equal data JSONNull then
    (v, errors_New "cannot unmarshal 'null' value into omit value")
  else
    let '(x, err) := json_Unmarshal data (value v) in
    match err with
    | Some e => ({| value := x; state := state v |}, Some e)
    | None => ({| value := x; state := StateSet |}, None)
    end.

(** [MarshalText] *)
Definition MarshalText (v : Val T) : list byte * error :=
  if negb (state v =? StateSet) then ([], None)
  else
    let '(text, err) := ConvertAssign_string (value v) in
    match err with
    | Some e => ([], Some e)
    | None => (list_byte_of_string text, None)
    end.

(** [UnmarshalText] *)
Definition UnmarshalText (v : Val T) (text : list byte) : Val T * error :=
  if (List.length text =? 0)%nat then
    ({| value := value v; state := StateUnset |}, None)
  else
    let '(x, err) :=
      ConvertAssign (value v) (OfString (string_of_list_byte text)) in
    match err with
    | Some e => ({| value := x; state := state v |}, Some e)
    | None => ({| value := x; state := StateSet |}, None)
    end.

(** [Value] *)
Definition Value (v : Val T) : outcome (driver_Value T * error) :=
  if negb (state v =? StateSet) then Returns (Dyn Nil, None)
  else
    match TypeOf (value v) with
    | None => Panics "reflect: call of reflect.Value.Type on zero Value"
    | Some t =>
        if Implements t DriverValuerIntf then
          let '(d, err) := Valuer_Value (value v) in Returns (Dyn d, err)
        else
          match Kind_of t with
          | Int | Int8 | Int16 | Int32 | Int64 =>
              Returns (Dyn (OfInt64 (Int_of (value v))), None)
          | Uint | Uint8 | Uint16 | Uint32 | Uint64 =>
              Returns (Dyn (OfInt64 (to_int64 (Uint_of (value v)))), None)
          | Bool => Returns (Held (value v), None)
          | String => Returns (Held (value v), None)
          | Slice =>
              match Elem t with
              | Panics msg => Panics msg
              | Returns elem =>
                  if Kind_eqb (Kind_of elem) Uint8 then
                    Returns (Held (value v), None)
                  else
                    Returns (Dyn Nil, errors_New
                      "underlying slice type has no implementation for driver.Valuer")
              end
          | Struct =>
              if rtype_eqb t TimeTimeType then
                Returns (Held (value v), None)
              else
                Returns (Dyn Nil, errors_New
                  "underlying struct type has no implementation for driver.Valuer")
          | _ =>
              Returns (Dyn Nil, errors_New
                "underlying type has no implementation for driver.Valuer")
          end
    end.

End Omit.
End Omit.

(** ** src/unnamed/part_000 *)

Module Part000.

(** [for typ.Kind() == reflect.Ptr { typ = typ.Elem() }].  The
    recursion ends because a descriptor is a finite tree; on a cyclic
    pointer type, which has no descriptor, the loop of the source does
    not end. *)
Fixpoint strip_pointers (typ : rtype) : rtype :=
  match typ with
  | PtrTo _ elem _ => strip_pointers elem
  | _ => typ
  end.

Section Part000.
Context {T : Type} `{GoType T} `{JSONCodec T} `{Converter T}.

(** [FromCond] *)
Definition FromCond (val : T) (ok : bool) : Val T :=
  if negb ok then {| value := zero; state := StateUnset |}
  else {| value := val; state := StateSet |}.

(** [GetOrZero] *)
Definition GetOrZero (v : Val T) : T :=
  if negb (state v =? StateSet) then zero else value v.

(** [UnmarshalJSON] *)
Definition UnmarshalJSON (v : Val T) (data : list byte) : Val T * error :=
  if (List.length data =? 0)%nat then
    ({| value := zero; state := StateUnset |}, None)
  else if bytes_Equal data JSONNull then
    (v, errors_New "cannot unmarshal 'null' value into omit value")
  else
    let '(x, err) := json_Unmarshal data (value v) in
    match err with
    | Some e => ({| value := x; state := state v |}, Some e)
    | None => ({| value := x; state := StateSet |}, None)
    end.

(** [MarshalJSONIsZero].  Calling [Kind] on the nil [reflect.Type] of
    a nil interface value is a nil dereference. *)
Definition MarshalJSONIsZero (v : Val T) : outcome bool :=
  if state v =? StateUnset then Returns true
  else
    match TypeOf (value v) with
    | None =>
        Panics "runtime error: invalid memory address or nil pointer dereference"
    | Some typ0 =>
        let typ := strip_pointers typ0 in
        match Kind_of typ with
        | Map | Struct | Slice =>
            match IsNil (value v) with
            | Panics msg => Panics msg
            | Returns true => Returns true
            | Returns false => Returns false
            end
        | _ => Returns false
        end
    end.

(** [MarshalText] *)
Definition MarshalText (v : Val T) : outcome (list byte * error) :=
  if negb (state v =? StateSet) then Returns ([], None)
  else
    match TypeOf (value v) with
    | None => Panics "reflect: call of reflect.Value.Type on zero Value"
    | Some t =>
        if Implements t EncodingTextMarshalerIntf then
          Returns (TextMarshaler_MarshalText (value v))
        else
          let '(text, err) := ConvertAssign_string (value v) in
          match err with
          | Some e => Returns ([], Some e)
          | None => Returns (list_byte_of_string text, None)
          end
    end.

(** [UnmarshalText] *)
Definition UnmarshalText (v : Val T) (text : list byte) : Val T * error :=
  if (List.length text =? 0)%nat then
    ({| value := zero; state := StateUnset |}, None)
  else if Implements PointerType EncodingTextUnmarshalerIntf then
    let '(x, err) := TextUnmarshaler_UnmarshalText (value v) text in
    match err with
    | Some e => ({| value := x; state := state v |}, Some e)
    | None => ({| value := x; state := StateSet |}, None)
    end
  else
    let '(x, err) :=
      ConvertAssign (value v) (OfString (string_of_list_byte text)) in
    match err with
    | Some e => ({| value := x; state := state v |}, Some e)
    | None => ({| value := x; state := StateSet |}, None)
    end.

(** [Value] *)
Definition Value (v : Val T) : outcome (driver_Value T * error) :=
  if negb (state v =? StateSet) then Returns (Dyn Nil, None)
  else
    match TypeOf (value v) with
    | None => Panics "reflect: call of reflect.Value.Type on zero Value"
    | Some t =>
        if Implements t DriverValuerIntf then
          let '(d, err) := Valuer_Value (value v) in Returns (Dyn d, err)
        else Returns (Held (value v), None)
    end.

End Part000.
End Part000.

(** ** Some concrete type arguments

    The types the package's tests instantiate [Val] with, and two more.
    A method slot of a type that does not have the method is never
    called by the adapters (they test [Implements] first); such a slot
    holds a fixed dummy result. *)

Module Types.

Definition no_Value {T : Type} (_ : T) : any * error := (Nil, None).
Definition no_MarshalText {T : Type} (_ : T) : list byte * error := ([], None).
Definition no_UnmarshalText {T : Type} (x : T) (_ : list byte) : T * error :=
  (x, None).

(** *** [string] *)

Definition stringType : rtype := Plain "string" PString [].

#[export] Instance GoType_string : GoType string := {
  zero := "";
  TypeOf := fun _ => Some stringType;
  PointerType := PtrTo "" stringType [];
  is_nil := fun _ => false;
  Int_of := fun _ => 0;
  Uint_of := fun _ => 0;
  Valuer_Value := no_Value;
  TextMarshaler_MarshalText := no_MarshalText;
  TextUnmarshaler_UnmarshalText := no_UnmarshalText
}.

(** Modelled from the spec: [opt.ConvertAssign] with a [string]
    destination, a best-effort coercion that may fail.  The spec fixes
    that scanning ["hello"] into a container of string stores
    ["hello"], and that text encoding stringifies the held value.  A
    string or byte-slice source is copied, an integer is written in
    decimal and a boolean as [true] or [false]; a nil source is
    refused. *)
#[export] Instance Converter_string : Converter string := {
  ConvertAssign := fun dest src =>
    match src with
    | OfString s => (s, None)
    | OfBytes b => (string_of_list_byte b, None)
    | OfInt64 n => (NilZero.string_of_int (Z.to_int n), None)
    | OfBool b => (if b then "true" else "false", None)
    | Nil => (dest, Some "converting NULL to string is unsupported")
    end;
  ConvertAssign_string := fun x => (x, None)
}.

(** *** [*bool] *)

Definition boolType : rtype := Plain "bool" PBool [].

#[export] Instance GoType_ptr_bool : GoType (option bool) := {
  zero := None;
  TypeOf := fun _ => Some (PtrTo "" boolType []);
  PointerType := PtrTo "" (PtrTo "" boolType []) [];
  is_nil := fun p => match p with None => true | Some _ => false end;
  Int_of := fun _ => 0;
  Uint_of := fun _ => 0;
  Valuer_Value := no_Value;
  TextMarshaler_MarshalText := no_MarshalText;
  TextUnmarshaler_UnmarshalText := no_UnmarshalText
}.

Definition is_json_space (b : byte) : bool :=
  match b with
  | x20 | x09 | x0a | x0d => true
  | _ => false
  end.

Fixpoint drop_space (l : list byte) : list byte :=
  match l with
  | [] => []
  | b :: l' => if is_json_space b then drop_space l' else l
  end.

Definition trim_space (l : list byte) : list byte :=
  rev (drop_space (rev (drop_space l))).

(** [encoding/json] at [*bool], on the three literals it accepts
    without an error, each possibly surrounded by JSON white space:
    [null] stores the nil pointer, [true] and [false] store a pointer to
    the boolean.  Every other input is an error of the decoder, a syntax
    error or a type error; this instance reports either with one message
    and leaves the destination as it was (on a type error the decoder
    of the library has stored a fresh pointer by then; no statement
    below evaluates such an input). *)
#[export] Instance JSONCodec_ptr_bool : JSONCodec (option bool) := {
  json_Marshal := fun p =>
    match p with
    | None => (list_byte_of_string "null", None)
    | Some true => (list_byte_of_string "true", None)
    | Some false => (list_byte_of_string "false", None)
    end;
  json_Unmarshal := fun data dest =>
    let lit := trim_space data in
    if bytes_Equal lit (list_byte_of_string "null") then (None, None)
    else if bytes_Equal lit (list_byte_of_string "true") then (Some true, None)
    else if bytes_Equal lit (list_byte_of_string "false") then (Some false, None)
    else (dest, Some "json: cannot decode into Go value of type *bool")
}.

(** [strconv.ParseBool] *)
Definition ParseBool (s : string) : option bool :=
  if existsb (String.eqb s) ["1"; "t"; "T"; "TRUE"; "true"; "True"] then
    Some true
  else if existsb (String.eqb s) ["0"; "f"; "F"; "FALSE"; "false"; "False"] then
    Some false
  else None.

(** Modelled from the spec: [opt.ConvertAssign] with a [*bool]
    destination, a best-effort coercion that may fail.  A nil source
    stores the nil pointer.  Any other source is stored behind a fresh
    pointer: a boolean as it is, the integers 0 and 1 and the texts
    [strconv.ParseBool] accepts as their boolean; anything else fails,
    the fresh pointer holding false by then.  A [*bool] source has no
    conversion to a string. *)
#[export] Instance Converter_ptr_bool : Converter (option bool) := {
  ConvertAssign := fun dest src =>
    let stored (r : option bool) : option bool * error :=
      match r with
      | Some b => (Some b, None)
      | None => (Some false, Some "couldn't convert into type bool")
      end in
    match src with
    | Nil => (None, None)
    | OfBool b => stored (Some b)
    | OfInt64 n =>
        stored (if n =? 1 then Some true
                else if n =? 0 then Some false else None)
    | OfString s => stored (ParseBool s)
    | OfBytes b => stored (ParseBool (string_of_list_byte b))
    end;
  ConvertAssign_string := fun _ => ("", Some "unsupported Scan")
}.

(** *** [testStruct] and [*testStruct] of the test file *)

Record testStruct : Type := { ID : Z }.

Definition testStructType : rtype := Plain "omit.testStruct" PStruct [].

#[export] Instance GoType_testStruct : GoType testStruct := {
  zero := {| ID := 0 |};
  TypeOf := fun _ => Some testStructType;
  PointerType := PtrTo "" testStructType [];
  is_nil := fun _ => false;
  Int_of := fun _ => 0;
  Uint_of := fun _ => 0;
  Valuer_Value := no_Value;
  TextMarshaler_MarshalText := no_MarshalText;
  TextUnmarshaler_UnmarshalText := no_UnmarshalText
}.

#[export] Instance GoType_ptr_testStruct : GoType (option testStruct) := {
  zero := None;
  TypeOf := fun _ => Some (PtrTo "" testStructType []);
  PointerType := PtrTo "" (PtrTo "" testStructType []) [];
  is_nil := fun p => match p with None => true | Some _ => false end;
  Int_of := fun _ => 0;
  Uint_of := fun _ => 0;
  Valuer_Value := no_Value;
  TextMarshaler_MarshalText := no_MarshalText;
  TextUnmarshaler_UnmarshalText := no_UnmarshalText
}.

(** *** [[]int]: [None] is the nil slice *)

Definition intType : rtype := Plain "int" PInt [].

#[export] Instance GoType_slice_int : GoType (option (list Z)) := {
  zero := None;
  TypeOf := fun _ => Some (SliceOf "" intType []);
  PointerType := PtrTo "" (SliceOf "" intType []) [];
  is_nil := fun s => match s with None => true | Some _ => false end;
  Int_of := fun _ => 0;
  Uint_of := fun _ => 0;
  Valuer_Value := no_Value;
  TextMarshaler_MarshalText := no_MarshalText;
  TextUnmarshaler_UnmarshalText := no_UnmarshalText
}.

(** *** [int32]: an integer of 32 bits, kept as its value *)

Definition int32 : Type := Z.

Definition int32Type : rtype := Plain "int32" PInt32 [].

Definition GoType_int32 : GoType int32 := {|
  zero := 0;
  TypeOf := fun _ => Some int32Type;
  PointerType := PtrTo "" int32Type [];
  is_nil := fun _ => false;
  Int_of := fun n => n;
  Uint_of := fun _ => 0;
  Valuer_Value := no_Value;
  TextMarshaler_MarshalText := no_MarshalText;
  TextUnmarshaler_UnmarshalText := no_UnmarshalText
|}.

(** *** [valuerImplementation] of the test file: [Value] returns
    [int64(1)] *)

Inductive valuerImplementation : Type := valuerImplementation_lit.

Definition valuerImplementationType : rtype :=
  Plain "omit.valuerImplementation" PStruct [DriverValuerIntf].

#[export] Instance GoType_valuerImplementation : GoType valuerImplementation := {
  zero := valuerImplementation_lit;
  TypeOf := fun _ => Some valuerImplementationType;
  PointerType := PtrTo "" valuerImplementationType [DriverValuerIntf];
  is_nil := fun _ => false;
  Int_of := fun _ => 0;
  Uint_of := fun _ => 0;
  Valuer_Value := fun _ => (OfInt64 1, None);
  TextMarshaler_MarshalText := no_MarshalText;
  TextUnmarshaler_UnmarshalText := no_UnmarshalText
}.

(** *** A type with a text decoder of its own

    [type Flag bool] with
    [func (f *Flag) UnmarshalText(b []byte) error] that accepts ["on"]
    and ["off"]. *)

Definition Flag : Type := bool.

Definition FlagType : rtype := Plain "Flag" PBool [].

Definition Flag_UnmarshalText (f : Flag) (b : list byte) : Flag * error :=
  if bytes_Equal b (list_byte_of_string "on") then (true, None)
  else if bytes_Equal b (list_byte_of_string "off") then (false, None)
  else (f, Some "bad flag").

Definition GoType_Flag : GoType Flag := {|
  zero := false;
  TypeOf := fun _ => Some FlagType;
  PointerType := PtrTo "" FlagType [EncodingTextUnmarshalerIntf];
  is_nil := fun _ => false;
  Int_of := fun _ => 0;
  Uint_of := fun _ => 0;
  Valuer_Value := no_Value;
  TextMarshaler_MarshalText := no_MarshalText;
  TextUnmarshaler_UnmarshalText := Flag_UnmarshalText
|}.

(** Modelled from the spec: [opt.ConvertAssign] with a [Flag]
    destination.  The helper is a best-effort coercion that may fail;
    it knows nothing of [Flag]'s methods.  A boolean source converts to
    the named boolean type; no rule turns text, bytes or an integer
    into it, so those sources are reported as unsupported and the
    destination is left as it was. *)
Definition Converter_Flag : Converter Flag := {|
  ConvertAssign := fun dest src =>
    match src with
    | OfBool b => (b, None)
    | _ => (dest, Some "unsupported Scan")
    end;
  ConvertAssign_string := fun x => (if x then "true" else "false", None)
|}.

(** *** [uint64], kept as its value *)

Definition uint64 : Type := Z.

Definition uint64Type : rtype := Plain "uint64" PUint64 [].

Definition GoType_uint64 : GoType uint64 := {|
  zero := 0;
  TypeOf := fun _ => Some uint64Type;
  PointerType := PtrTo "" uint64Type [];
  is_nil := fun _ => false;
  Int_of := fun _ => 0;
  Uint_of := fun n => n;
  Valuer_Value := no_Value;
  TextMarshaler_MarshalText := no_MarshalText;
  TextUnmarshaler_UnmarshalText := no_UnmarshalText
|}.

(** *** A type with a text encoder and a text decoder of its own

    [type Switch bool] with [func (s Switch) MarshalText() ([]byte, error)]
    that writes ["on"] or ["off"], and
    [func (s *Switch) UnmarshalText(b []byte) error] that reads them
    back.  The method set of [*Switch] has both methods. *)

Definition Switch : Type := bool.

Definition SwitchType : rtype := Plain "Switch" PBool [EncodingTextMarshalerIntf].

Definition Switch_MarshalText (s : Switch) : list byte * error :=
  (list_byte_of_string (if s then "on" else "off"), None).

Definition Switch_UnmarshalText (s : Switch) (b : list byte) : Switch * error :=
  if bytes_Equal b (list_byte_of_string "on") then (true, None)
  else if bytes_Equal b (list_byte_of_string "off") then (false, None)
  else (s, Some "bad switch").

Definition GoType_Switch : GoType Switch := {|
  zero := false;
  TypeOf := fun _ => Some SwitchType;
  PointerType :=
    PtrTo "" SwitchType [EncodingTextMarshalerIntf; EncodingTextUnmarshalerIntf];
  is_nil := fun _ => false;
  Int_of := fun _ => 0;
  Uint_of := fun _ => 0;
  Valuer_Value := no_Value;
  TextMarshaler_MarshalText := Switch_MarshalText;
  TextUnmarshaler_UnmarshalText := Switch_UnmarshalText
|}.

(** Modelled from the spec: [opt.ConvertAssign] with a [Switch]
    destination, a best-effort coercion that knows nothing of
    [Switch]'s methods: a boolean source converts to the named boolean
    type, the other sources are unsupported. *)
Definition Converter_Switch : Converter Switch := {|
  ConvertAssign := fun dest src =>
    match src with
    | OfBool b => (b, None)
    | _ => (dest, Some "unsupported Scan")
    end;
  ConvertAssign_string := fun x => (if x then "true" else "false", None)
|}.

End Types.

(** ** Containers the packages can produce

    A container of omit.go, resp. of part_000, is built by a constructor
    of the package (or is the zero value [Val[T]{}]) and changed by its
    methods with a pointer receiver; [Map] makes a new one. *)

Section Reachable.
Context {T : Type} `{GoType T} `{JSONCodec T} `{Converter T}.

Inductive reachable_omit : Val T -> Prop :=
| ro_New : reachable_omit Omit.New
| ro_From val : reachable_omit (From val)
| ro_FromPtr val : reachable_omit (FromPtr val)
| ro_Map v fn : reachable_omit v -> reachable_omit (Map_ v fn)
| ro_Set v val : reachable_omit v -> reachable_omit (Set_ v val)
| ro_Unset v : reachable_omit v -> reachable_omit (Unset v)
| ro_SetPtr v val : reachable_omit v -> reachable_omit (Omit.SetPtr v val)
| ro_UnmarshalJSON v data :
    reachable_omit v -> reachable_omit (fst (Omit.UnmarshalJSON v data))
| ro_UnmarshalText v text :
    reachable_omit v -> reachable_omit (fst (Omit.UnmarshalText v text))
| ro_Scan v src : reachable_omit v -> reachable_omit (fst (Scan v src)).

Inductive reachable_part000 : Val T -> Prop :=
| rp_zero : reachable_part000 {| value := zero; state := StateUnset |}
| rp_From val : reachable_part000 (From val)
| rp_FromPtr val : reachable_part000 (FromPtr val)
| rp_FromCond val ok : reachable_part000 (Part000.FromCond val ok)
| rp_Map v fn : reachable_part000 v -> reachable_part000 (Map_ v fn)
| rp_Set v val : reachable_part000 v -> reachable_part000 (Set_ v val)
| rp_Unset v : reachable_part000 v -> reachable_part000 (Unset v)
| rp_UnmarshalJSON v data :
    reachable_part000 v -> reachable_part000 (fst (Part000.UnmarshalJSON v data))
| rp_UnmarshalText v text :
    reachable_part000 v -> reachable_part000 (fst (Part000.UnmarshalText v text))
| rp_Scan v src : reachable_part000 v -> reachable_part000 (fst (Scan v src)).

End Reachable.

(** * Properties *)

Import Types.

(** ** Helper facts *)

Lemma bytes_Equal_refl (a : list byte) : bytes_Equal a a = true.
Proof.
  induction a as [|x a IH]; simpl; [reflexivity|].
  rewrite IH, andb_true_r. apply Byte.byte_dec_lb. reflexivity.
Qed.

Lemma bytes_Equal_eq (a b : list byte) : bytes_Equal a b = true <-> a = b.
Proof.
  split.
  - revert b. induction a as [|x a IH]; intros [|y b] E; simpl in E;
      try discriminate; [reflexivity|].
    apply andb_true_iff in E. destruct E as [Exy Eab].
    apply Byte.byte_dec_bl in Exy. rewrite (IH _ Eab), Exy. reflexivity.
  - intros ->. apply bytes_Equal_refl.
Qed.

Lemma bytes_Equal_neq (a b : list byte) : a <> b -> bytes_Equal a b = false.
Proof.
  intros N. destruct (bytes_Equal a b) eqn:E; [|reflexivity].
  apply bytes_Equal_eq in E. contradiction.
Qed.

Lemma len_zero (A : Type) (l : list A) :
  (List.length l =? 0)%nat = true <-> l = [].
Proof. destruct l; simpl; split; intros E; try reflexivity; discriminate. Qed.

Lemma len_nonzero (A : Type) (l : list A) :
  l <> [] -> (List.length l =? 0)%nat = false.
Proof. destruct l; simpl; [intros N; contradiction N|]; reflexivity. Qed.

Lemma state_not_set (s : StateT) : s = StateUnset -> (s =? StateSet) = false.
Proof. intros ->. reflexivity. Qed.

(** ** Construction and state transitions *)

Section Construction.
Context {T : Type} `{GoType T}.

Lemma Get_From (val : T) : Get (From val) = (val, true).
Proof. reflexivity. Qed.

Lemma Get_New : Get (Omit.New (T := T)) = (zero, false).
Proof. reflexivity. Qed.

Lemma Get_Unset (v : Val T) : Get (Unset v) = (zero, false).
Proof. reflexivity. Qed.

Lemma Set_then_Get (v : Val T) (val : T) : Get (Set_ v val) = (val, true).
Proof. reflexivity. Qed.

Lemma FromPtr_state (p : option T) :
  IsSet (FromPtr p) = match p with Some _ => true | None => false end.
Proof. destruct p; reflexivity. Qed.

Lemma FromCond_state (val : T) (ok : bool) :
  IsSet (Part000.FromCond val ok) = ok.
Proof. destruct ok; reflexivity. Qed.

Lemma Map_From_id (val : T) : Map_ (From val) (fun x => x) = From val.
Proof. reflexivity. Qed.

Lemma Map_unset (v : Val T) (fn : T -> T) :
  state v = StateUnset -> IsUnset (Map_ v fn) = true.
Proof. intros E. unfold Map_, IsUnset. rewrite E. reflexivity. Qed.

(** The two state queries are complementary on the two states the
    package assigns. *)
Lemma IsSet_IsUnset (v : Val T) :
  state v = StateUnset \/ state v = StateSet -> IsSet v = negb (IsUnset v).
Proof. intros [E|E]; unfold IsSet, IsUnset; rewrite E; reflexivity. Qed.

End Construction.

(** ** JSON decode *)

Section JSON.
Context {T : Type} `{GoType T} `{JSONCodec T}.

Lemma Omit_UnmarshalJSON_other (v : Val T) (data : list byte) x err :
  data <> [] -> data <> JSONNull ->
  json_Unmarshal data (value v) = (x, err) ->
  Omit.UnmarshalJSON v data =
    ({| value := x;
        state := match err with None => StateSet | Some _ => state v end |},
     err).
Proof.
  intros Hne Hnn E. unfold Omit.UnmarshalJSON.
  rewrite (len_nonzero Hne), (bytes_Equal_neq Hnn), E.
  destruct err; reflexivity.
Qed.

Lemma Part000_UnmarshalJSON_other (v : Val T) (data : list byte) x err :
  data <> [] -> data <> JSONNull ->
  json_Unmarshal data (value v) = (x, err) ->
  Part000.UnmarshalJSON v data =
    ({| value := x;
        state := match err with None => StateSet | Some _ => state v end |},
     err).
Proof.
  intros Hne Hnn E. unfold Part000.UnmarshalJSON.
  rewrite (len_nonzero Hne), (bytes_Equal_neq Hnn), E.
  destruct err; reflexivity.
Qed.

Lemma UnmarshalJSON_null (v : Val T) :
  Omit.UnmarshalJSON v JSONNull =
    (v, Some "cannot unmarshal 'null' value into omit value")
  /\ Part000.UnmarshalJSON v JSONNull =
    (v, Some "cannot unmarshal 'null' value into omit value").
Proof. split; reflexivity. Qed.

(** C1.  [UnmarshalJSON] of both packages: empty input makes the
    container unset and returns no error; the literal [null] is
    refused with an error and the container is left as it was; any
    other input is handed to [json.Unmarshal] for [T], and the state
    becomes set when that succeeds, while on failure the decoder's
    error is returned and the state is the one before the call. *)
Theorem UnmarshalJSON_cases (v : Val T) (data : list byte) :
  (data = [] ->
     Omit.UnmarshalJSON v data =
       ({| value := value v; state := StateUnset |}, None)
     /\ Part000.UnmarshalJSON v data =
       ({| value := zero; state := StateUnset |}, None))
  /\ (data = JSONNull ->
     Omit.UnmarshalJSON v data =
       (v, Some "cannot unmarshal 'null' value into omit value")
     /\ Part000.UnmarshalJSON v data =
       (v, Some "cannot unmarshal 'null' value into omit value"))
  /\ (data <> [] -> data <> JSONNull ->
     forall x,
       (json_Unmarshal data (value v) = (x, None) ->
          Omit.UnmarshalJSON v data =
            ({| value := x; state := StateSet |}, None)
          /\ Part000.UnmarshalJSON v data =
            ({| value := x; state := StateSet |}, None))
       /\ (forall e, json_Unmarshal data (value v) = (x, Some e) ->
          Omit.UnmarshalJSON v data =
            ({| value := x; state := state v |}, Some e)
          /\ Part000.UnmarshalJSON v data =
            ({| value := x; state := state v |}, Some e))).
Proof.
  split; [|split].
  - intros ->. split; reflexivity.
  - intros ->. apply UnmarshalJSON_null.
  - intros Hne Hnn x. split.
    + intros E. split.
      * apply (Omit_UnmarshalJSON_other v Hne Hnn E).
      * apply (Part000_UnmarshalJSON_other v Hne Hnn E).
    + intros e E. split.
      * apply (Omit_UnmarshalJSON_other v Hne Hnn E).
      * apply (Part000_UnmarshalJSON_other v Hne Hnn E).
Qed.

End JSON.

Lemma UnmarshalJSON_cases_witness :
  Omit.UnmarshalJSON (From (Some true)) [] =
    ({| value := Some true; state := StateUnset |}, None)
  /\ Part000.UnmarshalJSON (From (Some true)) JSONNull =
    (From (Some true), Some "cannot unmarshal 'null' value into omit value")
  /\ Omit.UnmarshalJSON (Omit.New (T := option bool))
       (list_byte_of_string "true") = (From (Some true), None)
  /\ Part000.UnmarshalJSON (Omit.New (T := option bool))
       (list_byte_of_string "maybe") =
    (Omit.New, Some "json: cannot decode into Go value of type *bool").
Proof.
  split; [|split; [|split]].
  - destruct (UnmarshalJSON_cases (From (Some true)) []) as [He _].
    apply He. reflexivity.
  - destruct (UnmarshalJSON_cases (From (Some true)) JSONNull) as (_ & Hn & _).
    apply Hn. reflexivity.
  - destruct (UnmarshalJSON_cases (Omit.New (T := option bool))
                (list_byte_of_string "true")) as (_ & _ & Ho).
    assert (Hne : list_byte_of_string "true" <> []) by discriminate.
    assert (Hnn : list_byte_of_string "true" <> JSONNull)
      by (vm_compute; discriminate).
    destruct (Ho Hne Hnn (Some true)) as [Hok _].
    apply Hok. reflexivity.
  - destruct (UnmarshalJSON_cases (Omit.New (T := option bool))
                (list_byte_of_string "maybe")) as (_ & _ & Ho).
    assert (Hne : list_byte_of_string "maybe" <> []) by discriminate.
    assert (Hnn : list_byte_of_string "maybe" <> JSONNull)
      by (vm_compute; discriminate).
    destruct (Ho Hne Hnn None) as [_ Herr].
    apply Herr. reflexivity.
Defined.

(** ** JSON round trip *)

Section JSONRoundTrip.
Context {T : Type} `{GoType T} `{JSONCodec T}.

(** C2, as amended.  Let [data] be the JSON encoding of [val] and let
    [json.Unmarshal] turn [data] back into [val].  [MarshalJSON] of
    [From val] is [data].  When [data] is neither empty nor the literal
    [null], [UnmarshalJSON] of it gives [From val] in both packages.
    When [data] is the literal [null] (a nil pointer, map or slice was
    held), [UnmarshalJSON] refuses it and leaves the destination as it
    was.  An unset container encodes to the literal [null], and decoding
    that is refused in the same way. *)
Theorem JSON_roundtrip_unless_null (val : T) (dest : Val T) (data : list byte) :
  json_Marshal val = (data, None) ->
  json_Unmarshal data (value dest) = (val, None) ->
  MarshalJSON (From val) = (data, None)
  /\ (data <> [] -> data <> JSONNull ->
      Omit.UnmarshalJSON dest (fst (MarshalJSON (From val))) = (From val, None)
      /\ Part000.UnmarshalJSON dest (fst (MarshalJSON (From val))) =
           (From val, None))
  /\ (data = JSONNull ->
      Omit.UnmarshalJSON dest (fst (MarshalJSON (From val))) =
        (dest, Some "cannot unmarshal 'null' value into omit value")
      /\ Part000.UnmarshalJSON dest (fst (MarshalJSON (From val))) =
        (dest, Some "cannot unmarshal 'null' value into omit value"))
  /\ (forall u : Val T, state u = StateUnset ->
      MarshalJSON u = (JSONNull, None)
      /\ Omit.UnmarshalJSON dest (fst (MarshalJSON u)) =
        (dest, Some "cannot unmarshal 'null' value into omit value")
      /\ Part000.UnmarshalJSON dest (fst (MarshalJSON u)) =
        (dest, Some "cannot unmarshal 'null' value into omit value")).
Proof.
  intros Em Eu.
  assert (Enc : MarshalJSON (From val) = (data, None)).
  { unfold MarshalJSON, From. simpl. exact Em. }
  rewrite Enc. simpl fst.
  split; [reflexivity|]. split; [|split].
  - intros Hne Hnn. split.
    + rewrite (Omit_UnmarshalJSON_other dest Hne Hnn Eu). reflexivity.
    + rewrite (Part000_UnmarshalJSON_other dest Hne Hnn Eu). reflexivity.
  - intros ->. apply UnmarshalJSON_null.
  - intros u Hu.
    assert (EncU : MarshalJSON u = (JSONNull, None)).
    { unfold MarshalJSON. rewrite (state_not_set Hu). reflexivity. }
    rewrite EncU. simpl fst. split; [reflexivity|]. apply UnmarshalJSON_null.
Qed.

End JSONRoundTrip.

Lemma JSON_roundtrip_unless_null_witness :
  Omit.UnmarshalJSON (Omit.New (T := option bool))
    (fst (MarshalJSON (From (Some true)))) = (From (Some true), None)
  /\ Part000.UnmarshalJSON (Omit.New (T := option bool))
    (fst (MarshalJSON (From (Some true)))) = (From (Some true), None).
Proof.
  assert (Em : json_Marshal (Some true) = (list_byte_of_string "true", None))
    by reflexivity.
  assert (Eu : json_Unmarshal (list_byte_of_string "true")
                 (value (Omit.New (T := option bool))) = (Some true, None))
    by reflexivity.
  destruct (JSON_roundtrip_unless_null _ Em Eu) as (_ & Hrt & _).
  apply Hrt.
  - discriminate.
  - vm_compute. discriminate.
Defined.

(** C2 as stated fails where the held value encodes to [null]: a nil
    [*bool] is encoded as [null], which [json.Unmarshal] would turn back
    into the nil pointer, but [UnmarshalJSON] of either package refuses
    it, so the set container does not come back. *)
Lemma JSON_roundtrip_nil_pointer_counterexample :
  json_Marshal (None : option bool) = (JSONNull, None)
  /\ json_Unmarshal JSONNull (None : option bool) = (None, None)
  /\ MarshalJSON (From (None : option bool)) = (JSONNull, None)
  /\ Omit.UnmarshalJSON Omit.New (fst (MarshalJSON (From (None : option bool))))
       = (Omit.New, Some "cannot unmarshal 'null' value into omit value")
  /\ Part000.UnmarshalJSON Omit.New
       (fst (MarshalJSON (From (None : option bool))))
       = (Omit.New, Some "cannot unmarshal 'null' value into omit value")
  /\ Omit.UnmarshalJSON Omit.New (fst (MarshalJSON (From (None : option bool))))
       <> (From None, None)
  /\ Part000.UnmarshalJSON Omit.New
       (fst (MarshalJSON (From (None : option bool))))
       <> (From None, None).
Proof.
  repeat split; try reflexivity; intros E; vm_compute in E; discriminate E.
Qed.

(** ** The zero-detection hook *)

(** [strip_pointers] is the loop of the source: while the kind is
    [reflect.Ptr], step to the element type. *)
Lemma strip_pointers_loop (typ : rtype) :
  Part000.strip_pointers typ =
    if Kind_eqb (Kind_of typ) Pointer then
      match Elem typ with
      | Returns elem => Part000.strip_pointers elem
      | Panics _ => typ
      end
    else typ.
Proof. destruct typ as [n k ms| | | | |]; try reflexivity. destruct k; reflexivity. Qed.

Lemma strip_pointers_not_pointer (typ : rtype) :
  Kind_of (Part000.strip_pointers typ) <> Pointer.
Proof.
  induction typ as [n k ms| | | | |]; simpl; try discriminate; [|assumption].
  destruct k; discriminate.
Qed.

Section ZeroDetection.
Context {T : Type} `{GoType T}.

Lemma MarshalJSONIsZero_unset (v : Val T) :
  state v = StateUnset -> Part000.MarshalJSONIsZero v = Returns true.
Proof. intros E. unfold Part000.MarshalJSONIsZero. rewrite E. reflexivity. Qed.

(** On a set container the hook looks at the kind left after the
    pointers are stripped: for a map, struct or slice kind its result is
    that of [IsNil] on the held value (a panic included), for any other
    kind it returns false. *)
Lemma MarshalJSONIsZero_set (v : Val T) (t : rtype) :
  state v <> StateUnset ->
  TypeOf (value v) = Some t ->
  let k := Kind_of (Part000.strip_pointers t) in
  (k = Map \/ k = Struct \/ k = Slice ->
     Part000.MarshalJSONIsZero v = IsNil (value v))
  /\ (k <> Map -> k <> Struct -> k <> Slice ->
     Part000.MarshalJSONIsZero v = Returns false).
Proof.
  intros Hs Ht k. unfold Part000.MarshalJSONIsZero.
  apply Z.eqb_neq in Hs. rewrite Hs, Ht. fold k. split.
  - intros [E|[E|E]]; rewrite E;
      destruct (IsNil (value v)) as [[|]|]; reflexivity.
  - intros N1 N2 N3. destruct k; try reflexivity; contradiction.
Qed.

(** A held value whose own type is a struct type: [IsNil] is not
    defined on it, and the hook panics. *)
Lemma MarshalJSONIsZero_struct_value (v : Val T) name ms :
  state v <> StateUnset ->
  TypeOf (value v) = Some (Plain name PStruct ms) ->
  Part000.MarshalJSONIsZero v =
    Panics "reflect: call of reflect.Value.IsNil on struct Value".
Proof.
  intros Hs Ht.
  destruct (MarshalJSONIsZero_set v Hs Ht) as [Hnil _].
  rewrite Hnil by (right; left; reflexivity).
  unfold IsNil. rewrite Ht. reflexivity.
Qed.

End ZeroDetection.

(** The three cases of the package's test: a nil [[]int] and a nil
    [*testStruct] that are set report zero, and are set all the same. *)
Lemma MarshalJSONIsZero_nil_collections :
  IsSet (From (None : option (list Z))) = true
  /\ Part000.MarshalJSONIsZero (From (None : option (list Z))) = Returns true
  /\ IsSet (From (None : option testStruct)) = true
  /\ Part000.MarshalJSONIsZero (From (None : option testStruct)) = Returns true
  /\ Part000.MarshalJSONIsZero (From (Some [1; 2])) = Returns false
  /\ Part000.MarshalJSONIsZero (From (Some {| ID := 1 |})) = Returns false.
Proof. repeat split. Qed.

(** C3.  The hook on a set container that holds a struct value (not a
    pointer to one), [From(testStruct{ID: 1})]: the container is set, the
    value is not nil, and the call panics instead of returning false. *)
Theorem MarshalJSONIsZero_plain_struct_panics :
  IsSet (From {| ID := 1 |}) = true
  /\ Kind_of (Part000.strip_pointers testStructType) = Struct
  /\ Part000.MarshalJSONIsZero (From {| ID := 1 |}) =
       Panics "reflect: call of reflect.Value.IsNil on struct Value"
  /\ Part000.MarshalJSONIsZero (From {| ID := 1 |}) <> Returns false.
Proof.
  assert (E : Part000.MarshalJSONIsZero (From {| ID := 1 |}) =
                Panics "reflect: call of reflect.Value.IsNil on struct Value").
  { apply (@MarshalJSONIsZero_struct_value _ _ (From {| ID := 1 |})
             "omit.testStruct" []).
    - discriminate.
    - reflexivity. }
  rewrite E. repeat split. discriminate.
Qed.

(** ** The database adapters *)

Lemma Intf_eqb_eq (a b : Intf) : Intf_eqb a b = true <-> a = b.
Proof. destruct a, b; simpl; split; intros E; try reflexivity; discriminate. Qed.

Lemma Intfs_eqb_eq (a b : list Intf) : Intfs_eqb a b = true <-> a = b.
Proof.
  revert b. induction a as [|x a IH]; intros [|y b]; simpl;
    split; intros E; try reflexivity; try discriminate.
  - apply andb_true_iff in E. destruct E as [E1 E2].
    apply Intf_eqb_eq in E1. apply IH in E2. congruence.
  - injection E as -> ->. apply andb_true_iff. split.
    + apply Intf_eqb_eq. reflexivity.
    + apply IH. reflexivity.
Qed.

Lemma PlainKind_eqb_eq (a b : PlainKind) : PlainKind_eqb a b = true <-> a = b.
Proof.
  split.
  - destruct a, b; intros E; try reflexivity; discriminate E.
  - intros ->. destruct b; reflexivity.
Qed.

Lemma Kind_eqb_eq (a b : Kind) : Kind_eqb a b = true <-> a = b.
Proof.
  split.
  - destruct a, b; intros E; try reflexivity; discriminate E.
  - intros ->. destruct b; reflexivity.
Qed.

Lemma rtype_eqb_refl (a : rtype) : rtype_eqb a a = true.
Proof.
  induction a; simpl;
    rewrite ?String.eqb_refl, ?Z.eqb_refl, ?IHa, ?IHa1, ?IHa2; simpl;
    try (apply andb_true_iff; split);
    try (apply PlainKind_eqb_eq; reflexivity);
    apply Intfs_eqb_eq; reflexivity.
Qed.

Lemma rtype_eqb_eq (a b : rtype) : rtype_eqb a b = true <-> a = b.
Proof.
  split; [|intros ->; apply rtype_eqb_refl].
  revert b. induction a; intros [] E; simpl in E; try discriminate;
    repeat match goal with
           | E : _ && _ = true |- _ =>
               apply andb_true_iff in E; destruct E
           | E : String.eqb _ _ = true |- _ => apply String.eqb_eq in E
           | E : Z.eqb _ _ = true |- _ => apply Z.eqb_eq in E
           | E : PlainKind_eqb _ _ = true |- _ => apply PlainKind_eqb_eq in E
           | E : Intfs_eqb _ _ = true |- _ => apply Intfs_eqb_eq in E
           | IH : forall b, rtype_eqb ?a b = true -> _,
             E : rtype_eqb ?a _ = true |- _ => apply IH in E
           end; congruence.
Qed.

(** A slice type has an element type. *)
Lemma slice_has_elem (t : rtype) :
  Kind_of t = Slice -> exists elem, Elem t = Returns elem.
Proof.
  destruct t as [n k ms| | | | |]; simpl; intros E; try discriminate.
  - destruct k; discriminate.
  - eexists. reflexivity.
Qed.

(** An unsigned value that fits in 63 bits is kept by the conversion to
    [int64]; a larger one wraps to a negative number. *)
Lemma to_int64_small (u : Z) : 0 <= u < 2 ^ 63 -> to_int64 u = u.
Proof.
  intros Hu. unfold to_int64.
  rewrite Z.mod_small by lia.
  destruct (u <? 2 ^ 63) eqn:E; [reflexivity|].
  apply Z.ltb_ge in E. lia.
Qed.

Lemma to_int64_large (u : Z) :
  2 ^ 63 <= u < 2 ^ 64 -> to_int64 u = u - 2 ^ 64.
Proof.
  intros Hu. unfold to_int64.
  rewrite Z.mod_small by lia.
  destruct (u <? 2 ^ 63) eqn:E; [|reflexivity].
  apply Z.ltb_lt in E. lia.
Qed.

Definition signed_kinds : list Kind := [Int; Int8; Int16; Int32; Int64].
Definition unsigned_kinds : list Kind := [Uint; Uint8; Uint16; Uint32; Uint64].

Section DatabaseValue.
Context {T : Type} `{GoType T}.

Lemma Value_unset (v : Val T) :
  state v <> StateSet ->
  Omit.Value v = Returns (Dyn Nil, None)
  /\ Part000.Value v = Returns (Dyn Nil, None).
Proof.
  intros Hs. apply Z.eqb_neq in Hs.
  unfold Omit.Value, Part000.Value. rewrite Hs. split; reflexivity.
Qed.

Lemma Value_native (v : Val T) (t : rtype) :
  state v = StateSet -> TypeOf (value v) = Some t ->
  Implements t DriverValuerIntf = true ->
  Omit.Value v =
    Returns (Dyn (fst (Valuer_Value (value v))), snd (Valuer_Value (value v)))
  /\ Part000.Value v =
    Returns (Dyn (fst (Valuer_Value (value v))), snd (Valuer_Value (value v))).
Proof.
  intros Hs Ht Hi. unfold Omit.Value, Part000.Value.
  rewrite Hs, Ht, Hi. simpl.
  destruct (Valuer_Value (value v)). split; reflexivity.
Qed.

Lemma Omit_Value_policy (v : Val T) (t : rtype) :
  state v = StateSet -> TypeOf (value v) = Some t ->
  Implements t DriverValuerIntf = false ->
  Omit.Value v =
    match Kind_of t with
    | Int | Int8 | Int16 | Int32 | Int64 =>
        Returns (Dyn (OfInt64 (Int_of (value v))), None)
    | Uint | Uint8 | Uint16 | Uint32 | Uint64 =>
        Returns (Dyn (OfInt64 (to_int64 (Uint_of (value v)))), None)
    | Bool | String => Returns (Held (value v), None)
    | Slice =>
        match Elem t with
        | Panics msg => Panics msg
        | Returns elem =>
            if Kind_eqb (Kind_of elem) Uint8 then Returns (Held (value v), None)
            else Returns (Dyn Nil, Some
              "underlying slice type has no implementation for driver.Valuer")
        end
    | Struct =>
        if rtype_eqb t TimeTimeType then Returns (Held (value v), None)
        else Returns (Dyn Nil, Some
          "underlying struct type has no implementation for driver.Valuer")
    | _ => Returns (Dyn Nil, Some
          "underlying type has no implementation for driver.Valuer")
    end.
Proof.
  intros Hs Ht Hi. unfold Omit.Value. rewrite Hs, Ht, Hi. simpl.
  destruct (Kind_of t); reflexivity.
Qed.

(** [Value] in both packages.  [Value] of a container that is not set
    is the nil value with no error, and [Value] of a set container whose
    held value has a dynamic type implementing [driver.Valuer] is the
    result of that value's own [Value] method.  Without a
    [driver.Valuer], omit.go applies the fixed policy: a signed integer
    kind gives its [int64]; an unsigned integer kind ([uint] to
    [uint64]) gives the value converted to [int64]; bool and string
    kinds pass the held value through; a slice passes through when its
    element kind is [uint8] and fails otherwise; a struct passes through
    when the type is [time.Time] and fails otherwise; every other kind
    fails.  part_000 has no policy: it passes the held value through,
    whatever its kind, with no error. *)
Lemma Value_policy (v : Val T) :
  (state v <> StateSet ->
     Omit.Value v = Returns (Dyn Nil, None)
     /\ Part000.Value v = Returns (Dyn Nil, None))
  /\ (forall t : rtype,
      state v = StateSet -> TypeOf (value v) = Some t ->
      (Implements t DriverValuerIntf = true ->
         Omit.Value v =
           Returns (Dyn (fst (Valuer_Value (value v))),
                    snd (Valuer_Value (value v)))
         /\ Part000.Value v =
           Returns (Dyn (fst (Valuer_Value (value v))),
                    snd (Valuer_Value (value v))))
      /\ (Implements t DriverValuerIntf = false ->
         Part000.Value v = Returns (Held (value v), None)
         /\ (In (Kind_of t) signed_kinds ->
             Omit.Value v = Returns (Dyn (OfInt64 (Int_of (value v))), None))
         /\ (In (Kind_of t) unsigned_kinds ->
             Omit.Value v =
               Returns (Dyn (OfInt64 (to_int64 (Uint_of (value v)))), None))
         /\ (Kind_of t = Bool \/ Kind_of t = String ->
             Omit.Value v = Returns (Held (value v), None))
         /\ (Kind_of t = Slice ->
             exists elem, Elem t = Returns elem
               /\ (Kind_of elem = Uint8 ->
                   Omit.Value v = Returns (Held (value v), None))
               /\ (Kind_of elem <> Uint8 ->
                   Omit.Value v = Returns (Dyn Nil, Some
                     "underlying slice type has no implementation for driver.Valuer")))
         /\ (Kind_of t = Struct ->
             (t = TimeTimeType ->
                Omit.Value v = Returns (Held (value v), None))
             /\ (t <> TimeTimeType ->
                Omit.Value v = Returns (Dyn Nil, Some
                  "underlying struct type has no implementation for driver.Valuer")))
         /\ (~ In (Kind_of t)
                 (signed_kinds ++ unsigned_kinds ++ [Bool; String; Slice; Struct]) ->
             Omit.Value v = Returns (Dyn Nil, Some
               "underlying type has no implementation for driver.Valuer")))).
Proof.
  split; [apply Value_unset|].
  intros t Hs Ht. split; [apply (Value_native v Hs Ht)|].
  intros Hi. pose proof (Omit_Value_policy v Hs Ht Hi) as P.
  split; [|split; [|split; [|split; [|split; [|split]]]]].
  - unfold Part000.Value. rewrite Hs, Ht, Hi. reflexivity.
  - intros Hin. rewrite P. simpl in Hin.
    repeat (destruct Hin as [E|Hin]; [rewrite <- E; reflexivity|]).
    contradiction.
  - intros Hin. rewrite P. simpl in Hin.
    repeat (destruct Hin as [E|Hin]; [rewrite <- E; reflexivity|]).
    contradiction.
  - intros [E|E]; rewrite P, E; reflexivity.
  - intros E. destruct (slice_has_elem t E) as [elem He].
    exists elem. split; [exact He|]. rewrite P, E, He. split.
    + intros Ek. rewrite Ek. reflexivity.
    + intros Nk. destruct (Kind_eqb (Kind_of elem) Uint8) eqn:Eb; [|reflexivity].
      apply Kind_eqb_eq in Eb. contradiction.
  - intros E. rewrite P, E. split.
    + intros ->. reflexivity.
    + intros Nt. destruct (rtype_eqb t TimeTimeType) eqn:Eb; [|reflexivity].
      apply rtype_eqb_eq in Eb. contradiction.
  - intros Nin. rewrite P.
    destruct (Kind_of t); try reflexivity; exfalso; apply Nin; simpl; tauto.
Qed.

End DatabaseValue.

Lemma Value_policy_examples :
  Omit.Value (Omit.New (T := string)) = Returns (Dyn Nil, None)
  /\ Omit.Value (From valuerImplementation_lit) = Returns (Dyn (OfInt64 1), None)
  /\ Part000.Value (From "hello") = Returns (Held "hello", None)
  /\ Omit.Value (From "hello") = Returns (Held "hello", None)
  /\ Omit.Value (From (Some [1; 2])) = Returns (Dyn Nil, Some
       "underlying slice type has no implementation for driver.Valuer")
  /\ Omit.Value (From {| ID := 1 |}) = Returns (Dyn Nil, Some
       "underlying struct type has no implementation for driver.Valuer")
  /\ Omit.Value (From (Some true)) = Returns (Dyn Nil, Some
       "underlying type has no implementation for driver.Valuer").
Proof.
  split; [|split; [|split; [|split; [|split; [|split]]]]].
  - destruct (Value_policy (Omit.New (T := string))) as [Hu _].
    apply Hu. discriminate.
  - destruct (Value_policy (From valuerImplementation_lit)) as [_ Hs].
    destruct (Hs valuerImplementationType eq_refl eq_refl) as [Hn _].
    destruct (Hn eq_refl) as [Hnat _]. exact Hnat.
  - destruct (Value_policy (From "hello")) as [_ Hs].
    destruct (Hs stringType eq_refl eq_refl) as [_ Hp].
    destruct (Hp eq_refl) as [Hpass _]. exact Hpass.
  - destruct (Value_policy (From "hello")) as [_ Hs].
    destruct (Hs stringType eq_refl eq_refl) as [_ Hp].
    destruct (Hp eq_refl) as (_ & _ & _ & Hb & _).
    apply Hb. right. reflexivity.
  - destruct (Value_policy (From (Some [1; 2]))) as [_ Hs].
    destruct (Hs (SliceOf "" intType []) eq_refl eq_refl) as [_ Hp].
    destruct (Hp eq_refl) as (_ & _ & _ & _ & Hsl & _).
    destruct (Hsl eq_refl) as (elem & He & _ & Hno).
    apply Hno. injection He as <-. discriminate.
  - destruct (Value_policy (From {| ID := 1 |})) as [_ Hs].
    destruct (Hs testStructType eq_refl eq_refl) as [_ Hp].
    destruct (Hp eq_refl) as (_ & _ & _ & _ & _ & Hst & _).
    destruct (Hst eq_refl) as [_ Hno].
    apply Hno. discriminate.
  - destruct (Value_policy (From (Some true))) as [_ Hs].
    destruct (Hs (PtrTo "" boolType []) eq_refl eq_refl) as [_ Hp].
    destruct (Hp eq_refl) as (_ & _ & _ & _ & _ & _ & Hd).
    apply Hd. simpl. intuition discriminate.
Defined.

(** C4.  [Value] of part_000 on a set [int32] that holds 5, and on a
    set [[]int]: neither type has a [driver.Valuer]; the held value is
    passed through as it is, with no error, where the policy (and
    [Value] of omit.go) gives [int64(5)] for the first and fails for the
    second. *)
Theorem Part000_Value_passes_raw :
  Implements int32Type DriverValuerIntf = false
  /\ @Part000.Value int32 GoType_int32 (@From int32 5) =
       Returns (Held 5, None)
  /\ @Omit.Value int32 GoType_int32 (@From int32 5) =
       Returns (Dyn (OfInt64 5), None)
  /\ Part000.Value (From (Some [1; 2])) = Returns (Held (Some [1; 2]), None)
  /\ Omit.Value (From (Some [1; 2])) = Returns (Dyn Nil, Some
       "underlying slice type has no implementation for driver.Valuer").
Proof. repeat split. Qed.

Section DatabaseScan.
Context {T : Type} `{Converter T}.

Lemma Scan_non_nil (v : Val T) (src : any) x err :
  src <> Nil -> ConvertAssign (value v) src = (x, err) ->
  Scan v src = ({| value := x; state := StateSet |}, err).
Proof.
  intros Hn E. unfold Scan.
  destruct src; try contradiction; simpl; simpl in E; rewrite E; reflexivity.
Qed.

(** C5.  [Scan] of a nil source fails with the error that a null cannot
    be stored and leaves the container as it was; [Scan] of any other
    source hands it to [ConvertAssign], whose result is stored and whose
    error is returned, the state being set: when the conversion
    succeeds the container is set and holds the converted value. *)
Theorem Scan_cases (v : Val T) (src : any) :
  (src = Nil ->
     Scan v src = (v, Some "cannot store 'null' value in omit value"))
  /\ (src <> Nil ->
     forall x err, ConvertAssign (value v) src = (x, err) ->
       Scan v src = ({| value := x; state := StateSet |}, err)
       /\ (err = None -> fst (Scan v src) = From x)).
Proof.
  split.
  - intros ->. reflexivity.
  - intros Hn x err E. rewrite (Scan_non_nil v Hn E).
    split; [reflexivity|]. intros _. reflexivity.
Qed.

(** C6, as amended.  When the source is not nil and [ConvertAssign]
    fails, [Scan] returns that error and the state of the container is
    set, since the state is written before the conversion runs, and the
    value slot holds what the conversion left there; a container that
    was not set before the call is therefore not what it was.  (A
    container that was set already keeps its state.) *)
Theorem Scan_failure_leaves_set (v : Val T) (src : any) x e :
  src <> Nil ->
  ConvertAssign (value v) src = (x, Some e) ->
  snd (Scan v src) = Some e
  /\ state (fst (Scan v src)) = StateSet
  /\ value (fst (Scan v src)) = x
  /\ (state v <> StateSet -> fst (Scan v src) <> v).
Proof.
  intros Hn E. rewrite (Scan_non_nil v Hn E). simpl.
  repeat split. intros Hs Ev. apply Hs. rewrite <- Ev. reflexivity.
Qed.

End DatabaseScan.

(** Scanning ["hello"] into an unset container of string. *)
Lemma Scan_cases_witness :
  Scan (From "kept") Nil =
    (From "kept", Some "cannot store 'null' value in omit value")
  /\ Scan (Omit.New (T := string)) (OfString "hello") = (From "hello", None)
  /\ fst (Scan (Omit.New (T := string)) (OfString "hello")) = From "hello".
Proof.
  split.
  - destruct (Scan_cases (From "kept") Nil) as [Hnil _].
    apply Hnil. reflexivity.
  - destruct (Scan_cases (Omit.New (T := string)) (OfString "hello"))
      as [_ Hsrc].
    assert (Hn : OfString "hello" <> Nil) by discriminate.
    destruct (Hsrc Hn "hello" None eq_refl) as [Hscan Hset].
    split; [exact Hscan | exact (Hset eq_refl)].
Defined.

Lemma Scan_failure_leaves_set_witness :
  snd (@Scan Flag Converter_Flag (@Omit.New Flag GoType_Flag) (OfString "on"))
    = Some "unsupported Scan"
  /\ state (fst (@Scan Flag Converter_Flag (@Omit.New Flag GoType_Flag)
                   (OfString "on"))) = StateSet
  /\ value (fst (@Scan Flag Converter_Flag (@Omit.New Flag GoType_Flag)
                   (OfString "on"))) = false
  /\ (state (@Omit.New Flag GoType_Flag) <> StateSet ->
      fst (@Scan Flag Converter_Flag (@Omit.New Flag GoType_Flag)
             (OfString "on")) <> @Omit.New Flag GoType_Flag).
Proof.
  apply (@Scan_failure_leaves_set Flag Converter_Flag
           (@Omit.New Flag GoType_Flag) (OfString "on") false "unsupported Scan").
  - discriminate.
  - reflexivity.
Defined.

(** C6 as stated fails on a container that is set already: scanning
    the text ["on"] into a set [Flag] fails in [ConvertAssign], which
    leaves the value as it was, and the state is written as set again,
    so the container after the failed call is the container before
    it. *)
Lemma Scan_failure_on_set_counterexample :
  @ConvertAssign Flag Converter_Flag true (OfString "on") =
    (true, Some "unsupported Scan")
  /\ @Scan Flag Converter_Flag (@From Flag true) (OfString "on") =
    (@From Flag true, Some "unsupported Scan")
  /\ fst (@Scan Flag Converter_Flag (@From Flag true) (OfString "on")) =
    @From Flag true.
Proof. repeat split. Qed.

(** ** The text adapter *)

Section Text.
Context {T : Type} `{GoType T} `{Converter T}.

(** The state after a decode: set on success, unchanged on failure. *)
Definition after_decode (v : Val T) (x : T) (err : error) : Val T * error :=
  ({| value := x;
      state := match err with None => StateSet | Some _ => state v end |},
   err).

(** [UnmarshalText] in both packages, on non-empty input.  part_000
    calls the text decoder of [*T] when [*T] implements
    [encoding.TextUnmarshaler], and calls [ConvertAssign] on the text as
    a string only when it does not; omit.go calls [ConvertAssign]
    whether or not [*T] has a decoder.  In each case the container is
    set when the call succeeds, and on failure the error is returned and
    the state is the one before the call. *)
Lemma UnmarshalText_dispatch (v : Val T) (text : list byte) :
  text <> [] ->
  (Implements PointerType EncodingTextUnmarshalerIntf = true ->
     Part000.UnmarshalText v text =
       after_decode v
         (fst (TextUnmarshaler_UnmarshalText (value v) text))
         (snd (TextUnmarshaler_UnmarshalText (value v) text)))
  /\ (Implements PointerType EncodingTextUnmarshalerIntf = false ->
     Part000.UnmarshalText v text =
       after_decode v
         (fst (ConvertAssign (value v) (OfString (string_of_list_byte text))))
         (snd (ConvertAssign (value v) (OfString (string_of_list_byte text)))))
  /\ Omit.UnmarshalText v text =
       after_decode v
         (fst (ConvertAssign (value v) (OfString (string_of_list_byte text))))
         (snd (ConvertAssign (value v) (OfString (string_of_list_byte text)))).
Proof.
  intros Hne. unfold Part000.UnmarshalText, Omit.UnmarshalText, after_decode.
  rewrite (len_nonzero Hne). split; [|split].
  - intros ->. destruct (TextUnmarshaler_UnmarshalText (value v) text) as [x [e|]];
      reflexivity.
  - intros ->.
    destruct (ConvertAssign (value v) (OfString (string_of_list_byte text)))
      as [x [e|]]; reflexivity.
  - destruct (ConvertAssign (value v) (OfString (string_of_list_byte text)))
      as [x [e|]]; reflexivity.
Qed.

(** C9.  In both packages, text decoding of the empty byte sequence
    makes the container unset and returns no error, for every [T]; and
    text encoding of an unset container gives no bytes and no error. *)
Theorem Text_empty_is_unset (v : Val T) :
  Omit.UnmarshalText v [] = ({| value := value v; state := StateUnset |}, None)
  /\ Part000.UnmarshalText v [] = ({| value := zero; state := StateUnset |}, None)
  /\ (state v = StateUnset ->
      Omit.MarshalText v = ([], None)
      /\ Part000.MarshalText v = Returns ([], None)).
Proof.
  split; [reflexivity|]. split; [reflexivity|].
  intros Hs. unfold Omit.MarshalText, Part000.MarshalText.
  rewrite (state_not_set Hs). split; reflexivity.
Qed.

End Text.

Lemma UnmarshalText_dispatch_examples :
  @Part000.UnmarshalText Flag GoType_Flag Converter_Flag
     (@Omit.New Flag GoType_Flag) (list_byte_of_string "on") =
    (@From Flag true, None)
  /\ Part000.UnmarshalText (Omit.New (T := string)) (list_byte_of_string "hello")
     = (From "hello", None)
  /\ Omit.UnmarshalText (Omit.New (T := string)) (list_byte_of_string "hello")
     = (From "hello", None).
Proof.
  split; [|split].
  - destruct (@UnmarshalText_dispatch Flag GoType_Flag Converter_Flag
                (@Omit.New Flag GoType_Flag) (list_byte_of_string "on"))
      as [Hnat _]; [discriminate|].
    apply Hnat. reflexivity.
  - destruct (UnmarshalText_dispatch (Omit.New (T := string))
                (text := list_byte_of_string "hello"))
      as (_ & Hconv & _); [discriminate|].
    apply Hconv. reflexivity.
  - destruct (UnmarshalText_dispatch (Omit.New (T := string))
                (text := list_byte_of_string "hello"))
      as (_ & _ & Homit); [discriminate|].
    exact Homit.
Defined.

(** C7.  [UnmarshalText] of omit.go on the text ["on"] and an unset
    container of [Flag].  [*Flag] has a text decoder that accepts the
    text, and part_000 delegates to it and sets the container.  omit.go
    does not consult the decoder: whatever [ConvertAssign] is, its
    result is that of [ConvertAssign] on the text; with a
    [ConvertAssign] that cannot turn text into a [Flag] the call fails
    and the container stays unset. *)
Theorem Omit_UnmarshalText_ignores_decoder (C : Converter Flag) :
  Implements (@PointerType Flag GoType_Flag) EncodingTextUnmarshalerIntf = true
  /\ Flag_UnmarshalText false (list_byte_of_string "on") = (true, None)
  /\ @Part000.UnmarshalText Flag GoType_Flag C
       (@Omit.New Flag GoType_Flag) (list_byte_of_string "on") =
     (@From Flag true, None)
  /\ @Omit.UnmarshalText Flag C
       (@Omit.New Flag GoType_Flag) (list_byte_of_string "on") =
     after_decode (@Omit.New Flag GoType_Flag)
       (fst (@ConvertAssign Flag C false (OfString "on")))
       (snd (@ConvertAssign Flag C false (OfString "on")))
  /\ @Omit.UnmarshalText Flag Converter_Flag
       (@Omit.New Flag GoType_Flag) (list_byte_of_string "on") =
     (@Omit.New Flag GoType_Flag, Some "unsupported Scan")
  /\ @Omit.UnmarshalText Flag Converter_Flag
       (@Omit.New Flag GoType_Flag) (list_byte_of_string "on") <>
     @Part000.UnmarshalText Flag GoType_Flag Converter_Flag
       (@Omit.New Flag GoType_Flag) (list_byte_of_string "on").
Proof.
  split; [reflexivity|]. split; [reflexivity|]. split; [reflexivity|].
  split; [|split].
  - apply (@UnmarshalText_dispatch Flag GoType_Flag C
             (@Omit.New Flag GoType_Flag) (list_byte_of_string "on")).
    discriminate.
  - reflexivity.
  - intros E. vm_compute in E. discriminate E.
Qed.

Lemma Text_empty_is_unset_witness :
  Omit.MarshalText {| value := "stale"; state := StateUnset |} = ([], None)
  /\ Part000.MarshalText {| value := "stale"; state := StateUnset |} =
     Returns ([], None).
Proof.
  destruct (Text_empty_is_unset {| value := "stale"; state := StateUnset |})
    as (_ & _ & Henc).
  apply Henc. reflexivity.
Defined.

(** ** Accessors and the unset state *)

Section Observers.
Context {T : Type} `{GoType T} `{JSONCodec T} `{Converter T}.

(** C10.  [MustGet] returns the held value of a set container; on an
    unset container it panics and so returns no value. *)
Theorem MustGet_cases (v : Val T) :
  (state v = StateSet -> MustGet v = Returns (value v))
  /\ (state v = StateUnset ->
      MustGet v = Panics "no value present"
      /\ forall x, MustGet v <> Returns x).
Proof.
  unfold MustGet, Get. split; intros E; rewrite E; simpl.
  - reflexivity.
  - split; [reflexivity|]. intros x. discriminate.
Qed.

(** C8.  Two unset containers give the same result under every
    observer of either package, whatever is left in their value slots:
    [Get], [GetOr], [GetOrZero], [Ptr], [IsSet], [IsUnset], [State], the
    method [Map] and the function [Map], [MarshalJSON],
    [MarshalJSONIsZero], [MarshalText] and [Value]. *)
Theorem Unset_value_unobservable (v1 v2 : Val T) :
  state v1 = StateUnset -> state v2 = StateUnset ->
  Get v1 = Get v2
  /\ (forall fallback, GetOr v1 fallback = GetOr v2 fallback)
  /\ Part000.GetOrZero v1 = Part000.GetOrZero v2
  /\ Omit.Ptr v1 = Omit.Ptr v2
  /\ IsSet v1 = IsSet v2
  /\ IsUnset v1 = IsUnset v2
  /\ State v1 = State v2
  /\ (forall fn, Map_ v1 fn = Map_ v2 fn)
  /\ (forall (B : Type) (GB : GoType B) (fn : T -> B),
        MapAB v1 fn = MapAB v2 fn)
  /\ MarshalJSON v1 = MarshalJSON v2
  /\ Part000.MarshalJSONIsZero v1 = Part000.MarshalJSONIsZero v2
  /\ Omit.MarshalText v1 = Omit.MarshalText v2
  /\ Part000.MarshalText v1 = Part000.MarshalText v2
  /\ Omit.Value v1 = Omit.Value v2
  /\ Part000.Value v1 = Part000.Value v2.
Proof.
  intros E1 E2.
  unfold Get, GetOr, Part000.GetOrZero, Omit.Ptr, IsSet, IsUnset, State,
    Map_, MapAB, MarshalJSON, Part000.MarshalJSONIsZero, Omit.MarshalText,
    Part000.MarshalText, Omit.Value, Part000.Value.
  rewrite E1, E2. simpl. repeat split.
Qed.

End Observers.

Lemma MustGet_cases_witness :
  MustGet (From "hello") = Returns "hello"
  /\ MustGet {| value := "stale"; state := StateUnset |} =
     Panics "no value present".
Proof.
  split.
  - destruct (MustGet_cases (From "hello")) as [Hset _].
    apply Hset. reflexivity.
  - destruct (MustGet_cases {| value := "stale"; state := StateUnset |})
      as [_ Hunset].
    destruct (Hunset eq_refl) as [Hp _]. exact Hp.
Defined.

(** A stale value is left in an unset container by [SetPtr(nil)] and by
    [UnmarshalJSON] of empty input in omit.go. *)
Lemma stale_value_reachable :
  Omit.SetPtr (From (Some true)) None =
    {| value := Some true; state := StateUnset |}
  /\ fst (Omit.UnmarshalJSON (From (Some true)) []) =
    {| value := Some true; state := StateUnset |}.
Proof. split; reflexivity. Qed.

Lemma Unset_value_unobservable_witness :
  Get {| value := Some true; state := StateUnset |} = Get (Omit.New (T := option bool))
  /\ MarshalJSON {| value := Some true; state := StateUnset |} =
     MarshalJSON (Omit.New (T := option bool))
  /\ Omit.Value {| value := Some true; state := StateUnset |} =
     Omit.Value (Omit.New (T := option bool)).
Proof.
  destruct (@Unset_value_unobservable (option bool) _ _ _
              {| value := Some true; state := StateUnset |}
              (Omit.New (T := option bool)) eq_refl eq_refl)
    as (Hget & _ & _ & _ & _ & _ & _ & _ & _ & Hjson & _ & _ & _ & Hval & _).
  repeat split; assumption.
Defined.

(** * Further properties of the two packages *)

(** ** The state field *)

Section StateInvariant.
Context {T : Type} `{GoType T} `{JSONCodec T} `{Converter T}.

Definition valid_state (s : StateT) : Prop := s = StateUnset \/ s = StateSet.

Lemma Omit_UnmarshalJSON_state (v : Val T) data :
  valid_state (state v) -> valid_state (state (fst (Omit.UnmarshalJSON v data))).
Proof.
  intros Hv. unfold Omit.UnmarshalJSON.
  destruct (List.length data =? 0)%nat; [left; reflexivity|].
  destruct (bytes_Equal data JSONNull); [exact Hv|].
  destruct (json_Unmarshal data (value v)) as [x [e|]]; simpl;
    [exact Hv | right; reflexivity].
Qed.

Lemma Part000_UnmarshalJSON_state (v : Val T) data :
  valid_state (state v) ->
  valid_state (state (fst (Part000.UnmarshalJSON v data))).
Proof.
  intros Hv. unfold Part000.UnmarshalJSON.
  destruct (List.length data =? 0)%nat; [left; reflexivity|].
  destruct (bytes_Equal data JSONNull); [exact Hv|].
  destruct (json_Unmarshal data (value v)) as [x [e|]]; simpl;
    [exact Hv | right; reflexivity].
Qed.

Lemma Omit_UnmarshalText_state (v : Val T) text :
  valid_state (state v) -> valid_state (state (fst (Omit.UnmarshalText v text))).
Proof.
  intros Hv. unfold Omit.UnmarshalText.
  destruct (List.length text =? 0)%nat; [left; reflexivity|].
  destruct (ConvertAssign (value v) (OfString (string_of_list_byte text)))
    as [x [e|]]; simpl; [exact Hv | right; reflexivity].
Qed.

Lemma Part000_UnmarshalText_state (v : Val T) text :
  valid_state (state v) ->
  valid_state (state (fst (Part000.UnmarshalText v text))).
Proof.
  intros Hv. unfold Part000.UnmarshalText.
  destruct (List.length text =? 0)%nat; [left; reflexivity|].
  destruct (Implements PointerType EncodingTextUnmarshalerIntf).
  - destruct (TextUnmarshaler_UnmarshalText (value v) text) as [x [e|]]; simpl;
      [exact Hv | right; reflexivity].
  - destruct (ConvertAssign (value v) (OfString (string_of_list_byte text)))
      as [x [e|]]; simpl; [exact Hv | right; reflexivity].
Qed.

Lemma Scan_state (v : Val T) src :
  valid_state (state v) -> valid_state (state (fst (Scan v src))).
Proof.
  intros Hv. unfold Scan. destruct (any_is_nil src); [exact Hv|].
  simpl. destruct (ConvertAssign (value v) src). right. reflexivity.
Qed.

Lemma Map_state (v : Val T) (fn : T -> T) : state (Map_ v fn) = state v.
Proof.
  unfold Map_. destruct (state v =? StateSet) eqn:E; [|reflexivity].
  apply Z.eqb_eq in E. rewrite E. reflexivity.
Qed.

Lemma reachable_state_valid_aux (v : Val T) :
  reachable_omit v \/ reachable_part000 v -> valid_state (state v).
Proof.
  intros [R|R].
  - induction R; try (left; reflexivity); try (right; reflexivity).
    + destruct val; [right|left]; reflexivity.
    + unfold valid_state. rewrite Map_state. assumption.
    + destruct val; [right|left]; reflexivity.
    + apply Omit_UnmarshalJSON_state. assumption.
    + apply Omit_UnmarshalText_state. assumption.
    + apply Scan_state. assumption.
  - induction R; try (left; reflexivity); try (right; reflexivity).
    + destruct val; [right|left]; reflexivity.
    + destruct ok; [right|left]; reflexivity.
    + unfold valid_state. rewrite Map_state. assumption.
    + apply Part000_UnmarshalJSON_state. assumption.
    + apply Part000_UnmarshalText_state. assumption.
    + apply Scan_state. assumption.
Qed.

(** X1.  Whatever sequence of constructors, setters, decoders and
    scans of one package produced a container, decode failures
    included, its state field holds [StateUnset] or [StateSet]; no
    other integer is ever stored in it. *)
Theorem reachable_state_valid (v : Val T) :
  reachable_omit v \/ reachable_part000 v ->
  state v = StateUnset \/ state v = StateSet.
Proof. apply reachable_state_valid_aux. Qed.

(** X2.  [String] of a state names the two declared states and panics
    on every other integer; on the state of a container the package
    produced it does not panic, and it answers ["set"] exactly when
    [IsSet] holds, and then [IsUnset] does not. *)
Theorem State_String_reachable :
  (forall s : StateT, s <> StateUnset -> s <> StateSet ->
     State_String s = Panics "unknown")
  /\ (forall v : Val T, reachable_omit v \/ reachable_part000 v ->
     State_String (State v) = Returns (if IsSet v then "set" else "unset")
     /\ IsSet v = negb (IsUnset v)).
Proof.
  split.
  - intros s N0 N1. unfold State_String.
    apply Z.eqb_neq in N0. apply Z.eqb_neq in N1. rewrite N0, N1. reflexivity.
  - intros v R. unfold State, IsSet, IsUnset.
    destruct (reachable_state_valid_aux R) as [E|E]; rewrite E; split; reflexivity.
Qed.

End StateInvariant.

Lemma reachable_state_valid_witness :
  state (fst (Omit.UnmarshalJSON (Omit.SetPtr (From (Some true)) None)
                (list_byte_of_string "maybe"))) = StateUnset
  \/ state (fst (Omit.UnmarshalJSON (Omit.SetPtr (From (Some true)) None)
                   (list_byte_of_string "maybe"))) = StateSet.
Proof.
  apply reachable_state_valid. left.
  apply ro_UnmarshalJSON. apply ro_SetPtr. apply ro_From.
Defined.

Lemma State_String_reachable_witness :
  State_String 99 = Panics "unknown"
  /\ State_String
       (State (fst (Scan (Part000.FromCond (Some true) false) (OfInt64 7))))
     = Returns "set".
Proof.
  destruct (@State_String_reachable (option bool) _ _ _) as [Hbad Hgood].
  split.
  - apply Hbad; discriminate.
  - destruct (Hgood (fst (Scan (Part000.FromCond (Some true) false) (OfInt64 7))))
      as [Hs _].
    + right. apply rp_Scan. apply rp_FromCond.
    + exact Hs.
Defined.

(** ** Accessors *)

Section Accessors.
Context {T : Type} `{GoType T}.

(** X3.  The accessors agree with each other on every container: [Get]
    is [GetOrZero] paired with [IsSet]; [GetOr] with the zero value as
    fallback is [GetOrZero]; [MustGet] returns what [Get] returns when
    [IsSet] holds and panics otherwise; [Ptr] points to what [Get]
    returns when [IsSet] holds and is nil otherwise, and [GetOr] is the
    pointee of [Ptr] or else the fallback. *)
Theorem accessors_agree (v : Val T) :
  Get v = (Part000.GetOrZero v, IsSet v)
  /\ GetOr v zero = Part000.GetOrZero v
  /\ MustGet v =
     (if IsSet v then Returns (fst (Get v)) else Panics "no value present")
  /\ Omit.Ptr v = (if IsSet v then Some (fst (Get v)) else None)
  /\ (forall fallback,
        GetOr v fallback =
          match Omit.Ptr v with Some x => x | None => fallback end).
Proof.
  unfold Get, GetOr, Part000.GetOrZero, MustGet, Get, Omit.Ptr, IsSet.
  destruct (state v =? StateSet); repeat split.
Qed.

(** X4.  Pointers in and out (omit.go), a pointer being read as nil or
    its pointee.  [Ptr] of [FromPtr p] is nil when [p] is nil and
    otherwise points to a value equal to the pointee of [p]; the same
    holds for [Ptr] after [SetPtr] with [p], whatever the container was.
    In the other direction a container rebuilt from its own [Ptr] has
    the same [Get] and [IsSet].  [SetPtr] with a nil pointer keeps the
    old value in the slot, where [FromPtr] of nil and [Unset] hold the
    zero value, and the accessors do not tell them apart. *)
Theorem Ptr_pointee_roundtrip (v : Val T) (p : option T) :
  Omit.Ptr (FromPtr p) = p
  /\ Omit.Ptr (Omit.SetPtr v p) = p
  /\ Get (FromPtr (Omit.Ptr v)) = Get v
  /\ IsSet (FromPtr (Omit.Ptr v)) = IsSet v
  /\ value (Omit.SetPtr v None) = value v
  /\ value (FromPtr None) = zero
  /\ value (Unset v) = zero
  /\ Get (Omit.SetPtr v p) = Get (FromPtr p)
  /\ Get (Omit.SetPtr v None) = Get (Unset v).
Proof.
  split; [destruct p; reflexivity|]. split; [destruct p; reflexivity|].
  split; [|split].
  - unfold Omit.Ptr, Get. destruct (state v =? StateSet); reflexivity.
  - unfold Omit.Ptr, IsSet. destruct (state v =? StateSet); reflexivity.
  - repeat split. destruct p; reflexivity.
Qed.

(** X5.  [FromCond] (part_000) is the inverse of [Get]: [Get] of
    [FromCond val ok] is [val] and true when [ok] holds and the zero
    value and false otherwise, so the value passed with a false flag is
    dropped; and feeding the two results of [Get] back to [FromCond]
    gives a container with the same [Get].  With a true flag [FromCond]
    is [From]. *)
Theorem FromCond_Get_roundtrip (v : Val T) (val : T) (ok : bool) :
  Get (Part000.FromCond val ok) = ((if ok then val else zero), ok)
  /\ Get (Part000.FromCond (fst (Get v)) (snd (Get v))) = Get v
  /\ Part000.FromCond val true = From val
  /\ Part000.FromCond val false = {| value := zero; state := StateUnset |}.
Proof.
  split; [destruct ok; reflexivity|]. split; [|split; reflexivity].
  unfold Get. destruct (state v =? StateSet); reflexivity.
Qed.

End Accessors.

(** ** Map *)

Section MapLaws.
Context {A B C : Type} `{GoType A} `{GoType B} `{GoType C}.

(** X6.  Mapping twice is mapping once with the composed function,
    for the method [Map] and for the function [Map] between types; the
    method is the function taken at one type. *)
Theorem Map_compose (v : Val A) :
  (forall (f g : A -> A),
     Map_ (Map_ v f) g = Map_ v (fun x => g (f x)))
  /\ (forall (f : A -> B) (g : B -> C),
     MapAB (MapAB v f) g = MapAB v (fun x => g (f x)))
  /\ (forall f : A -> A, Map_ v f = MapAB v f).
Proof.
  split; [|split]; intros; unfold Map_, MapAB, From;
    destruct (state v =? StateSet) eqn:E; simpl; try rewrite E; reflexivity.
Qed.

(** X7.  [Map] keeps the state as it is.  On a set container the new
    value is the function applied to the old one.  On a container that
    is not set the result has the zero value and does not depend on the
    function: two different functions give the same container, so a
    stale value in the slot does not pass through [Map]. *)
Theorem Map_state_and_value (v : Val A) (f : A -> B) :
  state (MapAB v f) = state v
  /\ Get (MapAB v f) = ((if IsSet v then f (value v) else zero), IsSet v)
  /\ (state v <> StateSet ->
      forall g : A -> B,
        MapAB v f = MapAB v g
        /\ MapAB v f = {| value := zero; state := state v |}).
Proof.
  unfold MapAB, Get, IsSet.
  destruct (state v =? StateSet) eqn:E; simpl.
  - apply Z.eqb_eq in E. rewrite E.
    split; [reflexivity|]. split; [reflexivity|].
    intros N. contradiction N. reflexivity.
  - rewrite E. split; [reflexivity|]. split; [reflexivity|].
    intros _ g. split; reflexivity.
Qed.

End MapLaws.

Lemma Map_state_and_value_witness :
  MapAB {| value := "stale"; state := StateUnset |}
        (fun s => Some (String.eqb s "stale")) =
    MapAB {| value := "stale"; state := StateUnset |} (fun _ => Some false)
  /\ MapAB {| value := "stale"; state := StateUnset |}
        (fun s => Some (String.eqb s "stale")) =
    {| value := None; state := StateUnset |}.
Proof.
  destruct (Map_state_and_value
              {| value := "stale"; state := StateUnset |}
              (fun s => Some (String.eqb s "stale")))
    as (_ & _ & Hunset).
  apply Hunset. discriminate.
Defined.

(** ** Text encode and decode *)

Lemma list_byte_of_string_nil (s : string) :
  list_byte_of_string s = [] <-> s = "".
Proof.
  split.
  - intros E. rewrite <- (string_of_list_byte_of_string s), E. reflexivity.
  - intros ->. reflexivity.
Qed.

Section TextRoundTrip.
Context {T : Type} `{GoType T} `{Converter T}.

(** X8.  Text round trip in omit.go.  Let [ConvertAssign] write the
    held value as [text] and read [text] back as the same value.  Then
    [MarshalText] of the set container gives the bytes of [text]; when
    [text] is not empty, [UnmarshalText] of those bytes gives the set
    container back; when [text] is empty (a set empty string, say) the
    decoder takes the bytes for absence and the container comes back
    unset, with the destination's old value in the slot. *)
Theorem Omit_Text_roundtrip (val : T) (dest : Val T) (text : string) :
  ConvertAssign_string val = (text, None) ->
  ConvertAssign (value dest) (OfString text) = (val, None) ->
  Omit.MarshalText (From val) = (list_byte_of_string text, None)
  /\ (text <> "" ->
      Omit.UnmarshalText dest (fst (Omit.MarshalText (From val))) =
        (From val, None))
  /\ (text = "" ->
      Omit.UnmarshalText dest (fst (Omit.MarshalText (From val))) =
        ({| value := value dest; state := StateUnset |}, None)).
Proof.
  intros Eenc Edec.
  assert (Em : Omit.MarshalText (From val) = (list_byte_of_string text, None)).
  { unfold Omit.MarshalText. simpl. rewrite Eenc. reflexivity. }
  rewrite Em. simpl fst. split; [reflexivity|]. split.
  - intros Hne. unfold Omit.UnmarshalText.
    rewrite len_nonzero by (intros E; apply list_byte_of_string_nil in E;
                            contradiction).
    rewrite string_of_list_byte_of_string, Edec. reflexivity.
  - intros ->. reflexivity.
Qed.

(** X9.  Text round trip in part_000.  Let the held value have the
    dynamic type [t], let the encoder part_000 selects for it (the
    value's own [MarshalText] when [t] implements
    [encoding.TextMarshaler], [ConvertAssign] to a string otherwise)
    produce [data], and let the decoder part_000 selects (the text
    decoder of [*T] when [*T] has one, [ConvertAssign] otherwise) read
    [data] back as the held value.  Then [MarshalText] of the set
    container returns [data]; when [data] is not empty,
    [UnmarshalText] of it gives the set container back; when [data] is
    empty the container comes back unset and zeroed. *)
Theorem Part000_Text_roundtrip (val : T) (dest : Val T) (data : list byte)
    (t : rtype) :
  TypeOf val = Some t ->
  (Implements t EncodingTextMarshalerIntf = true ->
     TextMarshaler_MarshalText val = (data, None)) ->
  (Implements t EncodingTextMarshalerIntf = false ->
     exists text, ConvertAssign_string val = (text, None)
                  /\ data = list_byte_of_string text) ->
  (Implements PointerType EncodingTextUnmarshalerIntf = true ->
     TextUnmarshaler_UnmarshalText (value dest) data = (val, None)) ->
  (Implements PointerType EncodingTextUnmarshalerIntf = false ->
     ConvertAssign (value dest) (OfString (string_of_list_byte data)) =
       (val, None)) ->
  Part000.MarshalText (From val) = Returns (data, None)
  /\ (forall out, Part000.MarshalText (From val) = Returns (out, None) ->
      (out <> [] -> Part000.UnmarshalText dest out = (From val, None))
      /\ (out = [] ->
          Part000.UnmarshalText dest out =
            ({| value := zero; state := StateUnset |}, None))).
Proof.
  intros Ht Henc_nat Henc_conv Hnat Hconv.
  assert (Em : Part000.MarshalText (From val) = Returns (data, None)).
  { unfold Part000.MarshalText. simpl. rewrite Ht.
    destruct (Implements t EncodingTextMarshalerIntf).
    - rewrite (Henc_nat eq_refl). reflexivity.
    - destruct (Henc_conv eq_refl) as (text & Et & ->). rewrite Et.
      reflexivity. }
  split; [exact Em|].
  intros out Eout. rewrite Em in Eout. injection Eout as <-. split.
  - intros Hne. unfold Part000.UnmarshalText. rewrite (len_nonzero Hne).
    destruct (Implements PointerType EncodingTextUnmarshalerIntf).
    + rewrite (Hnat eq_refl). reflexivity.
    + rewrite (Hconv eq_refl). reflexivity.
  - intros ->. reflexivity.
Qed.

(** X10.  Text encoding of a set container.  omit.go always asks
    [ConvertAssign] for the text: it returns the bytes of that text, or
    no bytes and the error when the conversion fails.  part_000 returns
    the result of the held value's own [MarshalText] when its dynamic
    type implements [encoding.TextMarshaler], and what omit.go returns
    when it does not; on a nil interface value it panics. *)
Theorem MarshalText_set (v : Val T) :
  state v = StateSet ->
  Omit.MarshalText v =
    (match snd (ConvertAssign_string (value v)) with
     | None => list_byte_of_string (fst (ConvertAssign_string (value v)))
     | Some _ => []
     end, snd (ConvertAssign_string (value v)))
  /\ (TypeOf (value v) = None ->
      Part000.MarshalText v =
        Panics "reflect: call of reflect.Value.Type on zero Value")
  /\ (forall t, TypeOf (value v) = Some t ->
      (Implements t EncodingTextMarshalerIntf = true ->
         Part000.MarshalText v = Returns (TextMarshaler_MarshalText (value v)))
      /\ (Implements t EncodingTextMarshalerIntf = false ->
         Part000.MarshalText v = Returns (Omit.MarshalText v))).
Proof.
  intros Hs. unfold Omit.MarshalText, Part000.MarshalText. rewrite Hs. simpl.
  split; [|split].
  - destruct (ConvertAssign_string (value v)) as [text [e|]]; reflexivity.
  - intros ->. reflexivity.
  - intros t ->. split; intros ->; [reflexivity|].
    destruct (ConvertAssign_string (value v)) as [text [e|]]; reflexivity.
Qed.

End TextRoundTrip.

Lemma Omit_Text_roundtrip_witness :
  Omit.UnmarshalText (Omit.New (T := string))
    (fst (Omit.MarshalText (From "hello"))) = (From "hello", None)
  /\ Omit.UnmarshalText (From "old") (fst (Omit.MarshalText (From ""))) =
     ({| value := "old"; state := StateUnset |}, None).
Proof.
  split.
  - assert (Eenc : ConvertAssign_string "hello" = ("hello", None))
      by reflexivity.
    assert (Edec : ConvertAssign (value (Omit.New (T := string)))
                     (OfString "hello") = ("hello", None)) by reflexivity.
    destruct (Omit_Text_roundtrip _ Eenc Edec) as (_ & Hrt & _).
    apply Hrt. discriminate.
  - assert (Eenc : ConvertAssign_string "" = ("", None)) by reflexivity.
    assert (Edec : ConvertAssign (value (From "old")) (OfString "") = ("", None))
      by reflexivity.
    destruct (Omit_Text_roundtrip _ Eenc Edec) as (_ & _ & Hempty).
    apply Hempty. reflexivity.
Defined.

Lemma Part000_Text_roundtrip_witness :
  @Part000.MarshalText Switch GoType_Switch Converter_Switch (@From Switch true)
    = Returns (list_byte_of_string "on", None)
  /\ @Part000.UnmarshalText Switch GoType_Switch Converter_Switch
       (@Omit.New Switch GoType_Switch) (list_byte_of_string "on") =
     (@From Switch true, None)
  /\ Part000.UnmarshalText (From "old") [] =
     ({| value := ""; state := StateUnset |}, None).
Proof.
  split; [|split].
  - destruct (@Part000_Text_roundtrip Switch GoType_Switch Converter_Switch
                true (@Omit.New Switch GoType_Switch)
                (list_byte_of_string "on") SwitchType eq_refl) as [Hm _].
    + intros _. reflexivity.
    + intros E. discriminate E.
    + intros _. reflexivity.
    + intros E. discriminate E.
    + exact Hm.
  - destruct (@Part000_Text_roundtrip Switch GoType_Switch Converter_Switch
                true (@Omit.New Switch GoType_Switch)
                (list_byte_of_string "on") SwitchType eq_refl) as [Hm Hrt].
    + intros _. reflexivity.
    + intros E. discriminate E.
    + intros _. reflexivity.
    + intros E. discriminate E.
    + destruct (Hrt _ Hm) as [Hback _]. apply Hback. discriminate.
  - assert (Ht : TypeOf "" = Some stringType) by reflexivity.
    destruct (Part000_Text_roundtrip (val := "") (From "old") (data := [])
                Ht) as [Hm Hrt].
    + intros E. discriminate E.
    + intros _. exists "". split; reflexivity.
    + intros E. discriminate E.
    + intros _. reflexivity.
    + destruct (Hrt _ Hm) as [_ Hempty]. apply Hempty. reflexivity.
Defined.

Lemma MarshalText_set_witness :
  @Part000.MarshalText Switch GoType_Switch Converter_Switch (@From Switch true)
    = Returns (list_byte_of_string "on", None)
  /\ @Omit.MarshalText Switch Converter_Switch (@From Switch true)
    = (list_byte_of_string "true", None)
  /\ Part000.MarshalText (From "hello") = Returns (Omit.MarshalText (From "hello")).
Proof.
  split; [|split].
  - destruct (@MarshalText_set Switch GoType_Switch Converter_Switch
                (@From Switch true) eq_refl) as (_ & _ & Hp).
    destruct (Hp SwitchType eq_refl) as [Hnat _].
    apply Hnat. reflexivity.
  - destruct (@MarshalText_set Switch GoType_Switch Converter_Switch
                (@From Switch true) eq_refl) as (Ho & _).
    exact Ho.
  - destruct (MarshalText_set (From "hello") eq_refl) as (_ & _ & Hp).
    destruct (Hp stringType eq_refl) as [_ Hconv].
    apply Hconv. reflexivity.
Defined.

(** ** [Value]: what reaches the driver as it is *)

(** The types whose values [Value] of omit.go passes through: bool and
    string kinds, slices of bytes, and [time.Time]. *)
Definition raw_allowed (t : rtype) : Prop :=
  Kind_of t = Bool
  \/ Kind_of t = String
  \/ (Kind_of t = Slice
      /\ exists elem, Elem t = Returns elem /\ Kind_of elem = Uint8)
  \/ t = TimeTimeType.

Section ValueRaw.
Context {T : Type} `{GoType T}.

Lemma Omit_Value_held_iff (v : Val T) (t : rtype) :
  state v = StateSet -> TypeOf (value v) = Some t ->
  Implements t DriverValuerIntf = false ->
  (exists x e, Omit.Value v = Returns (Held x, e)) <-> raw_allowed t.
Proof.
  intros Hs Ht Hi. rewrite (Omit_Value_policy v Hs Ht Hi). unfold raw_allowed.
  split.
  - intros (x & e & E). destruct (Kind_of t) eqn:Ek; try discriminate E.
    + left. reflexivity.
    + destruct (slice_has_elem t Ek) as [elem He]. rewrite He in E.
      destruct (Kind_eqb (Kind_of elem) Uint8) eqn:Eb; [|discriminate E].
      apply Kind_eqb_eq in Eb. right. right. left.
      split; [reflexivity|]. exists elem. split; assumption.
    + right. left. reflexivity.
    + destruct (rtype_eqb t TimeTimeType) eqn:Eb; [|discriminate E].
      apply rtype_eqb_eq in Eb. right. right. right. exact Eb.
  - intros [E|[E|[[E (elem & He & Ek)]|E]]].
    + rewrite E. eauto.
    + rewrite E. eauto.
    + rewrite E, He, Ek. simpl. eauto.
    + subst t. simpl. eauto.
Qed.

Lemma Omit_Value_held_shape (v : Val T) x e :
  Omit.Value v = Returns (Held x, e) ->
  x = value v /\ e = None /\ state v = StateSet
  /\ exists t, TypeOf (value v) = Some t
       /\ Implements t DriverValuerIntf = false.
Proof.
  unfold Omit.Value. destruct (state v =? StateSet) eqn:Es; simpl;
    [|discriminate]. apply Z.eqb_eq in Es.
  destruct (TypeOf (value v)) as [t|]; [|discriminate].
  destruct (Implements t DriverValuerIntf) eqn:Ei.
  - destruct (Valuer_Value (value v)); discriminate.
  - intros E.
    assert (x = value v /\ e = None) as [-> ->].
    { destruct (Kind_of t); try discriminate E;
        try (injection E as <- <-; split; reflexivity).
      - destruct (Elem t); [|discriminate E].
        destruct (Kind_eqb (Kind_of a) Uint8); [|discriminate E].
        injection E as <- <-. split; reflexivity.
      - destruct (rtype_eqb t TimeTimeType); [|discriminate E].
        injection E as <- <-. split; reflexivity. }
    repeat split; try assumption. exists t. split; [reflexivity | exact Ei].
Qed.

Definition integer_kinds : list Kind := signed_kinds ++ unsigned_kinds.

Lemma Omit_Value_rejects (v : Val T) (t : rtype) :
  state v = StateSet -> TypeOf (value v) = Some t ->
  Implements t DriverValuerIntf = false ->
  ~ In (Kind_of t) integer_kinds -> ~ raw_allowed t ->
  exists msg, Omit.Value v = Returns (Dyn Nil, Some msg).
Proof.
  intros Hs Ht Hi Nint Nraw. rewrite (Omit_Value_policy v Hs Ht Hi).
  unfold raw_allowed in Nraw.
  destruct (Kind_of t) eqn:Ek; try (eexists; reflexivity);
    try (exfalso; apply Nint; simpl; tauto);
    try (exfalso; apply Nraw; tauto).
  - destruct (slice_has_elem t Ek) as [elem He]. rewrite He.
    destruct (Kind_eqb (Kind_of elem) Uint8) eqn:Eb; [|eexists; reflexivity].
    apply Kind_eqb_eq in Eb. exfalso. apply Nraw. right. right. left.
    split; [reflexivity|]. exists elem. split; assumption.
  - destruct (rtype_eqb t TimeTimeType) eqn:Eb; [|eexists; reflexivity].
    apply rtype_eqb_eq in Eb. exfalso. apply Nraw. tauto.
Qed.

Lemma Omit_Value_integer (v : Val T) (t : rtype) :
  state v = StateSet -> TypeOf (value v) = Some t ->
  Implements t DriverValuerIntf = false ->
  In (Kind_of t) integer_kinds ->
  exists n, Omit.Value v = Returns (Dyn (OfInt64 n), None).
Proof.
  intros Hs Ht Hi Hin. rewrite (Omit_Value_policy v Hs Ht Hi). simpl in Hin.
  repeat (destruct Hin as [Ek|Hin]; [rewrite <- Ek; eexists; reflexivity|]).
  contradiction.
Qed.

(** X11.  What [Value] of omit.go returns for a set container whose
    held value has a dynamic type without a [driver.Valuer].  For an
    integer kind ([int] to [int64], [uint] to [uint64]) it is an
    [int64]; for a bool or string kind, a slice of bytes and
    [time.Time] it is the held value; for every other type it is an
    error.  So whatever is returned without an error is an [int64] or a
    held value of one of those four sorts: no float, map, array, other
    slice, other struct, pointer or channel is handed to the driver. *)
Theorem Omit_Value_result_kinds (v : Val T) (t : rtype) :
  state v = StateSet -> TypeOf (value v) = Some t ->
  Implements t DriverValuerIntf = false ->
  (In (Kind_of t) integer_kinds ->
     exists n, Omit.Value v = Returns (Dyn (OfInt64 n), None))
  /\ (raw_allowed t -> Omit.Value v = Returns (Held (value v), None))
  /\ (~ In (Kind_of t) integer_kinds -> ~ raw_allowed t ->
      exists msg, Omit.Value v = Returns (Dyn Nil, Some msg))
  /\ (forall d, Omit.Value v = Returns (d, None) ->
      (exists n, d = Dyn (OfInt64 n) /\ In (Kind_of t) integer_kinds)
      \/ (d = Held (value v) /\ raw_allowed t)).
Proof.
  intros Hs Ht Hi. split; [|split; [|split]].
  - apply (Omit_Value_integer v Hs Ht Hi).
  - intros Ha. apply (Omit_Value_held_iff v Hs Ht Hi) in Ha.
    destruct Ha as (x & e & E).
    destruct (Omit_Value_held_shape v E) as (-> & -> & _). exact E.
  - apply (Omit_Value_rejects v Hs Ht Hi).
  - intros d E. destruct d as [a|x].
    + left. rewrite (Omit_Value_policy v Hs Ht Hi) in E.
      destruct (Kind_of t) eqn:Ek; try discriminate E;
        try (injection E as <-; eexists; split;
             [reflexivity | simpl; tauto]).
      * destruct (Elem t); [|discriminate E].
        destruct (Kind_eqb (Kind_of a0) Uint8); discriminate E.
      * destruct (rtype_eqb t TimeTimeType); discriminate E.
    + right. destruct (Omit_Value_held_shape v E) as (-> & _).
      split; [reflexivity|].
      apply (Omit_Value_held_iff v Hs Ht Hi). eauto.
Qed.

(** X12.  [Value] of omit.go on an unsigned integer kind ([uint] to
    [uint64]) without a [driver.Valuer]: a value below 2^63 reaches the
    driver as the same number; a value from 2^63 up (a [uint64] with
    the high bit set) reaches it as a negative [int64], the value minus
    2^64, and no error is reported. *)
Theorem Omit_Value_unsigned_wraps (v : Val T) (t : rtype) :
  state v = StateSet -> TypeOf (value v) = Some t ->
  Implements t DriverValuerIntf = false ->
  In (Kind_of t) unsigned_kinds ->
  (0 <= Uint_of (value v) < 2 ^ 63 ->
     Omit.Value v = Returns (Dyn (OfInt64 (Uint_of (value v))), None))
  /\ (2 ^ 63 <= Uint_of (value v) < 2 ^ 64 ->
     Omit.Value v =
       Returns (Dyn (OfInt64 (Uint_of (value v) - 2 ^ 64)), None)
     /\ Uint_of (value v) - 2 ^ 64 < 0).
Proof.
  intros Hs Ht Hi Hin.
  assert (E : Omit.Value v =
                Returns (Dyn (OfInt64 (to_int64 (Uint_of (value v)))), None)).
  { rewrite (Omit_Value_policy v Hs Ht Hi). simpl in Hin.
    repeat (destruct Hin as [Ek|Hin]; [rewrite <- Ek; reflexivity|]).
    contradiction. }
  rewrite E. split.
  - intros Hu. rewrite (to_int64_small Hu). reflexivity.
  - intros Hu. rewrite (to_int64_large Hu). split; [reflexivity | lia].
Qed.

(** X13.  Where the two packages give the same [Value], and where
    not.  They agree on every container that is not set, on a set
    container whose held value has a [driver.Valuer], and, without one,
    on the types omit.go passes through (bool, string, bytes,
    [time.Time]).  They differ on the unsigned integer kinds, where
    omit.go returns an [int64] and part_000 the unsigned value itself,
    and on every type omit.go rejects, where omit.go returns an error
    and part_000 the held value with no error. *)
Theorem Value_packages_agree (v : Val T) :
  (state v <> StateSet -> Omit.Value v = Part000.Value v)
  /\ (forall t, state v = StateSet -> TypeOf (value v) = Some t ->
      (Implements t DriverValuerIntf = true ->
         Omit.Value v = Part000.Value v)
      /\ (Implements t DriverValuerIntf = false ->
         (raw_allowed t -> Omit.Value v = Part000.Value v)
         /\ (In (Kind_of t) unsigned_kinds ->
             Omit.Value v <> Part000.Value v)
         /\ (~ In (Kind_of t) integer_kinds -> ~ raw_allowed t ->
             (exists msg, Omit.Value v = Returns (Dyn Nil, Some msg))
             /\ Part000.Value v = Returns (Held (value v), None)
             /\ Omit.Value v <> Part000.Value v))).
Proof.
  split.
  - intros Hs. destruct (Value_unset v Hs) as [-> ->]. reflexivity.
  - intros t Hs Ht. split.
    + intros Hi. destruct (Value_native v Hs Ht Hi) as [-> ->]. reflexivity.
    + intros Hi.
      assert (Ep : Part000.Value v = Returns (Held (value v), None)).
      { unfold Part000.Value. rewrite Hs, Ht, Hi. reflexivity. }
      rewrite Ep. split; [|split].
      * intros Ha. apply (Omit_Value_held_iff v Hs Ht Hi) in Ha.
        destruct Ha as (x & e & E).
        destruct (Omit_Value_held_shape v E) as (-> & -> & _). exact E.
      * intros Hin.
        destruct (Omit_Value_integer v Hs Ht Hi) as [n En].
        { unfold integer_kinds. apply in_or_app. right. exact Hin. }
        rewrite En. discriminate.
      * intros Nint Nraw.
        destruct (Omit_Value_rejects v Hs Ht Hi Nint Nraw) as [msg Em].
        split; [exists msg; exact Em|]. split; [reflexivity|].
        rewrite Em. discriminate.
Qed.

End ValueRaw.

Lemma slice_int_not_raw_allowed : ~ raw_allowed (SliceOf "" intType []).
Proof.
  intros [E|[E|[[_ (elem & He & Ek)]|E]]]; try discriminate.
  injection He as <-. discriminate.
Qed.

Lemma Omit_Value_result_kinds_witness :
  Omit.Value (From "hello") = Returns (Held "hello", None)
  /\ (exists n, @Omit.Value int32 GoType_int32 (@From int32 5) =
                  Returns (Dyn (OfInt64 n), None))
  /\ (exists msg, Omit.Value (From (Some [1; 2])) = Returns (Dyn Nil, Some msg)).
Proof.
  split; [|split].
  - assert (Ht : TypeOf (value (From "hello")) = Some stringType)
      by reflexivity.
    destruct (Omit_Value_result_kinds (From "hello") eq_refl Ht eq_refl)
      as (_ & Hraw & _).
    apply Hraw. right. left. reflexivity.
  - assert (Ht : @TypeOf int32 GoType_int32 (value (@From int32 5)) =
                   Some int32Type) by reflexivity.
    destruct (@Omit_Value_result_kinds int32 GoType_int32 (@From int32 5)
                int32Type eq_refl Ht eq_refl) as (Hint & _).
    apply Hint. simpl. tauto.
  - assert (Ht : TypeOf (value (From (Some [1; 2]))) =
                   Some (SliceOf "" intType [])) by reflexivity.
    destruct (Omit_Value_result_kinds (From (Some [1; 2])) eq_refl Ht eq_refl)
      as (_ & _ & Hrej & _).
    apply Hrej.
    + simpl. intuition discriminate.
    + exact slice_int_not_raw_allowed.
Defined.

Lemma Omit_Value_unsigned_wraps_witness :
  @Omit.Value uint64 GoType_uint64 (@From uint64 18446744073709551615) =
    Returns (Dyn (OfInt64 (18446744073709551615 - 2 ^ 64)), None)
  /\ 18446744073709551615 - 2 ^ 64 < 0.
Proof.
  destruct (@Omit_Value_unsigned_wraps uint64 GoType_uint64
              (@From uint64 18446744073709551615) uint64Type)
    as [_ Hbig]; try reflexivity.
  - simpl. tauto.
  - apply Hbig. simpl. split; [vm_compute; discriminate | reflexivity].
Defined.

Lemma Value_packages_agree_witness :
  Omit.Value (Omit.New (T := string)) = Part000.Value (Omit.New (T := string))
  /\ Omit.Value (From valuerImplementation_lit) =
     Part000.Value (From valuerImplementation_lit)
  /\ Omit.Value (From "hello") = Part000.Value (From "hello")
  /\ @Omit.Value uint64 GoType_uint64 (@From uint64 7) <>
     @Part000.Value uint64 GoType_uint64 (@From uint64 7)
  /\ Omit.Value (From (Some [1; 2])) <> Part000.Value (From (Some [1; 2])).
Proof.
  split; [|split; [|split; [|split]]].
  - destruct (Value_packages_agree (Omit.New (T := string))) as [Hu _].
    apply Hu. discriminate.
  - destruct (Value_packages_agree (From valuerImplementation_lit)) as [_ Hs].
    destruct (Hs valuerImplementationType eq_refl eq_refl) as [Hn _].
    apply Hn. reflexivity.
  - destruct (Value_packages_agree (From "hello")) as [_ Hs].
    destruct (Hs stringType eq_refl eq_refl) as [_ Hp].
    destruct (Hp eq_refl) as (Hraw & _).
    apply Hraw. right. left. reflexivity.
  - destruct (@Value_packages_agree uint64 GoType_uint64 (@From uint64 7))
      as [_ Hs].
    destruct (Hs uint64Type eq_refl eq_refl) as [_ Hp].
    destruct (Hp eq_refl) as (_ & Huns & _).
    apply Huns. simpl. tauto.
  - destruct (Value_packages_agree (From (Some [1; 2]))) as [_ Hs].
    destruct (Hs (SliceOf "" intType []) eq_refl eq_refl) as [_ Hp].
    destruct (Hp eq_refl) as (_ & _ & Hrej).
    destruct Hrej as (_ & _ & Hdiff).
    + simpl. intuition discriminate.
    + exact slice_int_not_raw_allowed.
    + exact Hdiff.
Defined.

(** ** The zero-detection hook on typed values *)

Definition collection_kind (k : Kind) : bool :=
  match k with
  | Map | Struct | Slice => true
  | _ => false
  end.

Section ZeroDetectionTotal.
Context {T : Type} `{GoType T}.

(** X14.  The answer of [MarshalJSONIsZero] on a container that is not
    unset and whose held value has the dynamic type [t], for the types
    a descriptor expresses, whose chain of pointer element types is
    finite (on a cyclic pointer type such as [type P *P] the loop of
    the source does not end, and nothing is said here).  When [t] is
    itself a struct type the call panics.  Otherwise the answer is true
    exactly when the kind left after stripping the pointers of [t] is
    map, struct or slice and the held value itself (the outermost
    pointer, the map or the slice) is nil.  So a nil pointer to a
    scalar is not reported as zero, and behind a pointer that is not nil
    nothing is looked at. *)
Theorem MarshalJSONIsZero_characterised (v : Val T) (t : rtype) :
  state v <> StateUnset ->
  TypeOf (value v) = Some t ->
  (Kind_of t = Struct ->
     Part000.MarshalJSONIsZero v =
       Panics "reflect: call of reflect.Value.IsNil on struct Value")
  /\ (Kind_of t <> Struct ->
     Part000.MarshalJSONIsZero v =
       Returns (collection_kind (Kind_of (Part000.strip_pointers t))
                && is_nil (value v))).
Proof.
  intros Hs Ht. split.
  - intros Ek. destruct t as [n k ms| | | | |]; try discriminate Ek.
    destruct k; try discriminate Ek.
    apply (MarshalJSONIsZero_struct_value v Hs Ht).
  - intros Nk.
    destruct (MarshalJSONIsZero_set v Hs Ht) as [Hcoll Hother].
    destruct (collection_kind (Kind_of (Part000.strip_pointers t))) eqn:Ec.
    + rewrite Hcoll
        by (destruct (Kind_of (Part000.strip_pointers t));
            try discriminate Ec; tauto).
      unfold IsNil. rewrite Ht. simpl.
      destruct t as [n k ms| | | | |]; simpl in *; try reflexivity;
        try discriminate Ec.
      destruct k; simpl in *; try discriminate Ec. contradiction Nk.
      reflexivity.
    + rewrite Hother
        by (intros E; rewrite E in Ec; discriminate Ec).
      reflexivity.
Qed.

End ZeroDetectionTotal.

Lemma MarshalJSONIsZero_characterised_witness :
  Part000.MarshalJSONIsZero (From (None : option bool)) = Returns false
  /\ Part000.MarshalJSONIsZero (From (None : option testStruct)) = Returns true
  /\ Part000.MarshalJSONIsZero (From {| ID := 0 |}) =
     Panics "reflect: call of reflect.Value.IsNil on struct Value".
Proof.
  assert (Hs : forall (A : Type) (x : A), state (From x) <> StateUnset)
    by (intros A x; discriminate).
  split; [|split].
  - assert (Ht : TypeOf (value (From (None : option bool))) =
                   Some (PtrTo "" boolType [])) by reflexivity.
    destruct (MarshalJSONIsZero_characterised _ (Hs _ _) Ht) as [_ Hret].
    apply Hret. discriminate.
  - assert (Ht : TypeOf (value (From (None : option testStruct))) =
                   Some (PtrTo "" testStructType [])) by reflexivity.
    destruct (MarshalJSONIsZero_characterised _ (Hs _ _) Ht) as [_ Hret].
    apply Hret. discriminate.
  - assert (Ht : TypeOf (value (From {| ID := 0 |})) = Some testStructType)
      by reflexivity.
    destruct (MarshalJSONIsZero_characterised _ (Hs _ _) Ht) as [Hpanic _].
    apply Hpanic. reflexivity.
Defined.

(** ** The null guard of the JSON decoder *)

Section NullGuard.
Context {T : Type} `{GoType T} `{JSONCodec T}.

(** X15.  The guard of [UnmarshalJSON] compares the input with the four
    bytes [null] exactly.  An input that is not those bytes but that
    [json.Unmarshal] reads as a value whose encoding is [null] (the
    literal with white space around it, read into a pointer) is
    accepted: the container becomes set.  That container encodes to
    [null], and decoding this encoding is refused.  So the decoder can
    itself produce a container whose encoding it does not read back. *)
Theorem UnmarshalJSON_null_guard_exact (v dest : Val T) (data : list byte) (x : T) :
  data <> [] -> data <> JSONNull ->
  json_Unmarshal data (value v) = (x, None) ->
  json_Marshal x = (JSONNull, None) ->
  Omit.UnmarshalJSON v data = (From x, None)
  /\ Part000.UnmarshalJSON v data = (From x, None)
  /\ MarshalJSON (fst (Omit.UnmarshalJSON v data)) = (JSONNull, None)
  /\ Omit.UnmarshalJSON dest (fst (MarshalJSON (fst (Omit.UnmarshalJSON v data))))
     = (dest, Some "cannot unmarshal 'null' value into omit value")
  /\ Part000.UnmarshalJSON dest
       (fst (MarshalJSON (fst (Part000.UnmarshalJSON v data))))
     = (dest, Some "cannot unmarshal 'null' value into omit value").
Proof.
  intros Hne Hnn Eu Em.
  rewrite (Omit_UnmarshalJSON_other v Hne Hnn Eu).
  rewrite (Part000_UnmarshalJSON_other v Hne Hnn Eu). simpl.
  assert (Enc : MarshalJSON (From x) = (JSONNull, None)).
  { unfold MarshalJSON. simpl. exact Em. }
  unfold From in Enc. rewrite Enc. simpl.
  repeat split; apply UnmarshalJSON_null.
Qed.

End NullGuard.

Lemma UnmarshalJSON_null_guard_exact_witness :
  Omit.UnmarshalJSON (Omit.New (T := option bool)) (list_byte_of_string " null")
    = (From None, None)
  /\ Omit.UnmarshalJSON (Omit.New (T := option bool))
       (fst (MarshalJSON
               (fst (Omit.UnmarshalJSON (Omit.New (T := option bool))
                       (list_byte_of_string " null")))))
     = (Omit.New, Some "cannot unmarshal 'null' value into omit value").
Proof.
  assert (Hne : list_byte_of_string " null" <> []) by discriminate.
  assert (Hnn : list_byte_of_string " null" <> JSONNull)
    by (vm_compute; discriminate).
  assert (Eu : json_Unmarshal (list_byte_of_string " null")
                 (value (Omit.New (T := option bool))) = (None, None))
    by reflexivity.
  assert (Em : json_Marshal (None : option bool) = (JSONNull, None))
    by reflexivity.
  destruct (UnmarshalJSON_null_guard_exact (Omit.New (T := option bool))
              (Omit.New (T := option bool)) Hne Hnn Eu Em)
    as (Hdec & _ & _ & Hback & _).
  split; [exact Hdec | exact Hback].
Defined.
